(** * custom-gpt backend: the authorization pipeline of [backend-gpt/src/index.ts]

    A shallow embedding of the Hono application: the OAuth callback, the
    Stripe webhook, the authentication middleware and the [/protected]
    route, over a ledger of [User] rows.

    Conventions of the model.
    - A JavaScript [Date] is its time value: milliseconds since the epoch,
      an integer ([Z]); an Invalid Date is [None].
    - The [User] table is a finite map from the primary key [id] to rows.
    - A handler is a computation over the ledger that either returns or
      throws, and records the Prisma client calls it makes.
    - A handler runs from start to end without interleaving with another
      one: each request is one atomic step of the system.
    - Code of third-party packages (hono, stripe, axios, the JWT and cookie
      helpers) is not part of the repository; what the handlers need from it
      is collected in the record [Externals]. *)

From Stdlib Require Import ZArith String List Lia Bool.
From stdpp Require Import base option gmap strings list fin_maps.

Open Scope string_scope.
Open Scope list_scope.
Open Scope Z_scope.

(** ** ECMAScript time values

    The part of ECMA-262 (Date objects) that [new Date()], [getDate] and
    [setDate] rest on.  [Z.div] and [Z.modulo] round toward minus infinity
    for a positive divisor, as the standard's [floor] and [modulo] do. *)
Module Date.

Definition msPerDay : Z := 86400000.

Definition Day (t : Z) : Z := t / msPerDay.

Definition TimeWithinDay (t : Z) : Z := t mod msPerDay.

Definition DaysInYear (y : Z) : Z :=
  if negb (y mod 4 =? 0) then 365
  else if negb (y mod 100 =? 0) then 366
  else if negb (y mod 400 =? 0) then 365
  else 366.

Definition DayFromYear (y : Z) : Z :=
  365 * (y - 1970) + (y - 1969) / 4 - (y - 1901) / 100 + (y - 1601) / 400.

Definition TimeFromYear (y : Z) : Z := msPerDay * DayFromYear y.

(** [yearDown fuel y d]: the first year at or below [y] that starts no later
    than day [d], looking at [fuel] candidates. *)
Fixpoint yearDown (fuel : nat) (y d : Z) : Z :=
  match fuel with
  | O => y
  | S fuel' => if DayFromYear y <=? d then y else yearDown fuel' (y - 1) d
  end.

(** The largest [y] with [TimeFromYear y <= t].  The search starts two years
    above the estimate from the mean length of a Gregorian year
    (146097 days in 400 years) and needs at most three steps down. *)
Definition YearFromTime (t : Z) : Z :=
  yearDown 4 (1970 + Day t * 400 / 146097 + 2) (Day t).

Definition InLeapYear (t : Z) : Z :=
  if DaysInYear (YearFromTime t) =? 366 then 1 else 0.

Definition DayWithinYear (t : Z) : Z := Day t - DayFromYear (YearFromTime t).

Definition MonthFromTime (t : Z) : Z :=
  let d := DayWithinYear t in
  let leap := InLeapYear t in
  if d <? 31 then 0
  else if d <? 59 + leap then 1
  else if d <? 90 + leap then 2
  else if d <? 120 + leap then 3
  else if d <? 151 + leap then 4
  else if d <? 181 + leap then 5
  else if d <? 212 + leap then 6
  else if d <? 243 + leap then 7
  else if d <? 273 + leap then 8
  else if d <? 304 + leap then 9
  else if d <? 334 + leap then 10
  else 11.

Definition DateFromTime (t : Z) : Z :=
  let d := DayWithinYear t in
  let leap := InLeapYear t in
  match MonthFromTime t with
  | 0 => d + 1
  | 1 => d - 30
  | 2 => d - 58 - leap
  | 3 => d - 89 - leap
  | 4 => d - 119 - leap
  | 5 => d - 150 - leap
  | 6 => d - 180 - leap
  | 7 => d - 211 - leap
  | 8 => d - 242 - leap
  | 9 => d - 272 - leap
  | 10 => d - 303 - leap
  | _ => d - 333 - leap
  end.

(** Day number within its year of the first day of month [m] (0 to 11). *)
Definition monthStart (m leap : Z) : Z :=
  match m with
  | 0 => 0
  | 1 => 31
  | 2 => 59 + leap
  | 3 => 90 + leap
  | 4 => 120 + leap
  | 5 => 151 + leap
  | 6 => 181 + leap
  | 7 => 212 + leap
  | 8 => 243 + leap
  | 9 => 273 + leap
  | 10 => 304 + leap
  | _ => 334 + leap
  end.

(** [MakeDay]: the day number of the first of month [month mod 12] in year
    [year + floor(month / 12)], plus [date - 1]. *)
Definition MakeDay (year month date : Z) : Z :=
  let ym := year + month / 12 in
  let mn := month mod 12 in
  let leap := if DaysInYear ym =? 366 then 1 else 0 in
  DayFromYear ym + monthStart mn leap + date - 1.

Definition MakeDate (day time : Z) : Z := day * msPerDay + time.

(** [TimeClip]: a time value beyond 8.64e15 ms from the epoch is NaN. *)
Definition maxTime : Z := 8640000000000000.

Definition TimeClip (t : Z) : option Z :=
  if Z.abs t <=? maxTime then Some t else None.

(** Local time at a fixed offset [tza] from UTC. *)
Definition LocalTime (tza t : Z) : Z := t + tza.
Definition UTC (tza t : Z) : Z := t - tza.

(** [Date.prototype.getDate] and [Date.prototype.setDate] on a valid date. *)
Definition getDate (tza tv : Z) : Z := DateFromTime (LocalTime tza tv).

Definition setDate (tza tv dt : Z) : option Z :=
  let t := LocalTime tza tv in
  let newDate :=
    MakeDate (MakeDay (YearFromTime t) (MonthFromTime t) dt) (TimeWithinDay t) in
  TimeClip (UTC tza newDate).

End Date.

(** ** Values, rows and the ledger *)

(** A JavaScript value, as far as the handlers look at it: whether it is a
    string (the only values Prisma accepts for [id] and [email]). *)
Inductive JsValue :=
| JsUndefined
| JsNull
| JsString (s : string)
| JsNumber (n : Z)
| JsBool (b : bool)
| JsObject.

(** The [User] row.  The initial migration creates [id], [email],
    [createdAt], [requestCount] (INTEGER, default 0) and [lastLogin]; the
    handlers read and write [paidUntil], a nullable timestamp. *)
Record User := mkUser {
  id : string;
  email : string;
  createdAt : Z;
  requestCount : Z;
  lastLogin : Z;
  paidUntil : option Z
}.

Abbreviation Ledger := (gmap string User).

(** PostgreSQL's INTEGER is a signed 32-bit number; arithmetic that leaves
    its range is an error (no wrap-around). *)
Definition int4_max : Z := 2147483647.

(** The environment bindings of the worker ([c.env]). *)
Record Bindings := mkBindings {
  DATABASE_URL : string;
  JWT_SECRET : string;
  CLIENT_ID : string;
  CLIENT_SECRET : string;
  REDIRECT_URI : string;
  STRIPE_SECRET_KEY : string;
  STRIPE_SUCCESS_URL : string;
  STRIPE_CANCEL_URL : string;
  STRIPE_WEBHOOK_SECRET : string
}.

(** ** Exceptions, Prisma calls and the handler monad *)

Inductive Exn :=
| AxiosError (message : string)
| JwtError (message : string)
| StripeSignatureVerificationError (message : string)
| StripeError (message : string)
| SyntaxError (message : string)
| PrismaValidationError
| PrismaRecordNotFound
| PrismaUniqueConstraint
| PrismaIntegerOutOfRange.

Definition message (e : Exn) : string :=
  match e with
  | AxiosError m | JwtError m | StripeSignatureVerificationError m
  | StripeError m | SyntaxError m => m
  | PrismaValidationError => "Invalid invocation: argument validation failed"
  | PrismaRecordNotFound => "Record to update not found."
  | PrismaUniqueConstraint => "Unique constraint failed"
  | PrismaIntegerOutOfRange => "integer out of range"
  end.

(** What a handler asks of the Prisma client, in order. *)
Inductive PrismaCall :=
| FindUniqueById (userId : JsValue)
| FindUniqueByEmail (mail : JsValue)
| CreateUser (mail : string)
| UpdateRequestCount (userId : JsValue) (now : Z)
| UpdatePaidUntil (userId : JsValue) (until : option Z).

Inductive Result (A : Type) :=
| Ok (a : A)
| Throw (e : Exn).
Arguments Ok {A} a.
Arguments Throw {A} e.

(** A computation over the ledger: its result, the ledger it leaves and the
    Prisma calls it made. *)
Definition M (A : Type) : Type := Ledger -> Result A * Ledger * list PrismaCall.

Definition ret {A} (a : A) : M A := fun db => (Ok a, db, []).

Definition throw {A} (e : Exn) : M A := fun db => (Throw e, db, []).

Definition bind {A B} (m : M A) (k : A -> M B) : M B :=
  fun db =>
    match m db with
    | (Ok a, db1, calls1) =>
        let '(r, db2, calls2) := k a db1 in (r, db2, calls1 ++ calls2)
    | (Throw e, db1, calls1) => (Throw e, db1, calls1)
    end.

(** [try { m } catch (e) { h e }] *)
Definition try_catch {A} (m : M A) (h : Exn -> M A) : M A :=
  fun db =>
    match m db with
    | (Ok a, db1, calls1) => (Ok a, db1, calls1)
    | (Throw e, db1, calls1) =>
        let '(r, db2, calls2) := h e db1 in (r, db2, calls1 ++ calls2)
    end.

(** The outcome of a call that touches no ledger (an HTTP request, a
    signature check). *)
Definition lift {A} (r : Result A) : M A := fun db => (r, db, []).

Declare Scope handler_scope.
Delimit Scope handler_scope with handler.
Notation "'let!' x ':=' m 'in' k" := (bind m (fun x => k))
  (at level 10, x name, m at level 100, k at level 200) : handler_scope.
Open Scope handler_scope.

(** ** The Prisma client on the [User] model *)
Module prisma.

(** [prisma.user.findUnique({ where: { id } })] *)
Definition findUnique_id (userId : JsValue) : M (option User) :=
  fun db =>
    match userId with
    | JsString s => (Ok (db !! s), db, [FindUniqueById userId])
    | _ => (Throw PrismaValidationError, db, [FindUniqueById userId])
    end.

(** [prisma.user.findUnique({ where: { email } })]: the row with that
    email (the column has a unique index). *)
Definition findUnique_email (mail : JsValue) : M (option User) :=
  fun db =>
    match mail with
    | JsString s =>
        (Ok (snd <$> (snd <$> list_find (fun kv => email (snd kv) = s)
                                 (map_to_list db))),
         db, [FindUniqueByEmail mail])
    | _ => (Throw PrismaValidationError, db, [FindUniqueByEmail mail])
    end.

(** [prisma.user.create({ data: { email } })]: the database fills in the
    generated primary key [newId] and the column defaults; [lastLogin], which
    the call does not give, starts at the creation time.  The primary key
    and the unique index on [email] refuse a duplicate. *)
Definition create (mail : string) (now : Z) (newId : string) : M User :=
  fun db =>
    match db !! newId, list_find (fun kv => email (snd kv) = mail) (map_to_list db) with
    | None, None =>
        let u := mkUser newId mail now 0 now None in
        (Ok u, <[newId := u]> db, [CreateUser mail])
    | _, _ => (Throw PrismaUniqueConstraint, db, [CreateUser mail])
    end.

(** The row after [data: { requestCount: { increment: 1 }, lastLogin: now }]. *)
Definition recordAllowedRequest (u : User) (now : Z) : User :=
  mkUser (id u) (email u) (createdAt u) (requestCount u + 1) now (paidUntil u).

(** The row after [data: { paidUntil: until }]. *)
Definition extendPaidUntil (u : User) (until : Z) : User :=
  mkUser (id u) (email u) (createdAt u) (requestCount u) (lastLogin u)
         (Some until).

(** [prisma.user.update({ where: { id }, data: { requestCount: { increment: 1 },
    lastLogin: now } })] *)
Definition update_request (userId : JsValue) (now : Z) : M User :=
  fun db =>
    let call := [UpdateRequestCount userId now] in
    match userId with
    | JsString s =>
        match db !! s with
        | Some u =>
            if requestCount u + 1 <=? int4_max then
              (Ok (recordAllowedRequest u now),
               <[s := recordAllowedRequest u now]> db, call)
            else (Throw PrismaIntegerOutOfRange, db, call)
        | None => (Throw PrismaRecordNotFound, db, call)
        end
    | _ => (Throw PrismaValidationError, db, call)
    end.

(** [prisma.user.update({ where: { id }, data: { paidUntil } })]; an Invalid
    Date ([None]) does not pass the client's validation. *)
Definition update_paidUntil (userId : JsValue) (until : option Z) : M User :=
  fun db =>
    let call := [UpdatePaidUntil userId until] in
    match userId, until with
    | JsString s, Some t =>
        match db !! s with
        | Some u => (Ok (extendPaidUntil u t), <[s := extendPaidUntil u t]> db, call)
        | None => (Throw PrismaRecordNotFound, db, call)
        end
    | _, _ => (Throw PrismaValidationError, db, call)
    end.

End prisma.

(** ** Third-party code the handlers call *)

(** The session object of a Stripe event, and the event, as far as the
    webhook reads them. *)
Record Session := mkSession {
  client_reference_id : option string
}.

Record StripeEvent := mkEvent {
  type : string;
  data_object : Session
}.

(** The payload [verify] returns; [userId] is [JsUndefined] when the payload
    has no such property. *)
Record JwtPayload := mkPayload {
  userId : JsValue
}.

(** What [getSignedCookie(c, secret, 'token')] returns: [undefined] when the
    cookie is absent, [false] when its signature is wrong, else its value. *)
Inductive SignedCookie :=
| CookieUndefined
| CookieFalse
| CookieValue (value : string).

Record Externals := mkExternals {
  (** offset of the runtime's local time from UTC, in milliseconds *)
  LocalTZA : Z;
  (** [axios.post('https://oauth2.googleapis.com/token', ...)]:
      [tokenResponse.data.access_token], or the request throws *)
  axios_post_token : option string -> Bindings -> Result JsValue;
  (** [axios.get('https://www.googleapis.com/oauth2/v3/userinfo', ...)]:
      [userInfoResponse.data.email], or the request throws *)
  axios_get_userinfo : JsValue -> Result JsValue;
  (** [sign({ userId }, secret)] of hono/jwt *)
  sign : string -> string -> string;
  (** [verify(token, secret)] of hono/jwt at clock reading [now] *)
  verify : string -> string -> Z -> Result JwtPayload;
  (** the [Set-Cookie] value [setSignedCookie] produces for the token *)
  setSignedCookie : string -> string -> string;
  (** [getSignedCookie] on the request's [Cookie] header *)
  getSignedCookie : option string -> string -> string -> SignedCookie;
  (** Stripe's check of a present [stripe-signature] header against the raw
      body and the webhook secret, at clock reading [now] *)
  verifyHeader : string -> string -> string -> Z -> Result unit;
  (** [JSON.parse] of a verified raw body into an event *)
  JSON_parse : string -> Result StripeEvent;
  (** [stripe.checkout.sessions.create(...)]: [session.url], or it throws *)
  checkout_sessions_create : Bindings -> JsValue -> Result JsValue
}.

(** [Stripe.webhooks.constructEventAsync(payload, header, secret)]: an empty
    payload and a missing or empty header are refused before any signature
    is computed; a verified payload is parsed into the event. *)
Definition constructEventAsync (X : Externals)
    (payload : string) (header : option string) (secret : string) (now : Z)
  : Result StripeEvent :=
  if String.eqb payload "" then
    Throw (StripeSignatureVerificationError "No webhook payload was provided.")
  else
    match header with
    | None =>
        Throw (StripeSignatureVerificationError
                 "No stripe-signature header value was provided.")
    | Some h =>
        if String.eqb h "" then
          Throw (StripeSignatureVerificationError
                   "No stripe-signature header value was provided.")
        else
          match verifyHeader X payload h secret now with
          | Ok _ => JSON_parse X payload
          | Throw e => Throw e
          end
    end.

(** ** Responses *)

Inductive Body :=
| OAuthCallbackFailed (details : string)
| WebhookSignatureFailed
| Received
| UserNotAuthenticated (signInUrl : string)
| InvalidToken (signInUrl : string)
| UserNotFound
| YouAreAuthenticated
| PaymentRequired (stripeSessionUrl : JsValue).

Inductive Response :=
| Json (status : Z) (body : Body)
| Redirect (location : string) (setCookie : string)
| InternalServerError
| NotFound.

(** ** The access decision (the condition of [/protected]) *)

Inductive Decision := ALLOW | REQUIRE_PAYMENT.

Definition FREE_QUOTA : Z := 4.

(** [user.requestCount < 4 || user.paidUntil && user.paidUntil > now] *)
Definition decide (user : User) (now : Z) : Decision :=
  if (requestCount user <? FREE_QUOTA)
     || match paidUntil user with
        | Some until => now <? until
        | None => false
        end
  then ALLOW else REQUIRE_PAYMENT.

(** ** The handlers *)
Section Handlers.

Variable X : Externals.
Variable env : Bindings.

(** [app.get('/oauth/callback', ...)] *)
Definition oauth_callback (code : option string) (now : Z) (newId : string)
  : M Response :=
  try_catch
    (let! access_token := lift (axios_post_token X code env) in
     let! mail := lift (axios_get_userinfo X access_token) in
     let! found := prisma.findUnique_email mail in
     let! user :=
       match found, mail with
       | Some u, _ => ret u
       | None, JsString m => prisma.create m now newId
       | None, _ => throw PrismaValidationError
       end in
     let token := sign X (id user) (JWT_SECRET env) in
     ret (Redirect "https://chatgpt.com/g/g-dDhU9UEws-cryptobot"
                   (setSignedCookie X token (JWT_SECRET env))))
    (fun error => ret (Json 500 (OAuthCallbackFailed (message error)))).

Definition JsOfOption (o : option string) : JsValue :=
  match o with
  | Some s => JsString s
  | None => JsNull
  end.

(** [app.post('/webhook', ...)] *)
Definition webhook (sig : option string) (rawBody : string) (now : Z)
  : M Response :=
  match constructEventAsync X rawBody sig (STRIPE_WEBHOOK_SECRET env) now with
  | Throw err => ret (Json 400 WebhookSignatureFailed)
  | Ok event =>
      let! _ :=
        if String.eqb (type event) "checkout.session.completed" then
          let session := data_object event in
          let userId := JsOfOption (client_reference_id session) in
          let endOfDay :=
            Date.setDate (LocalTZA X) now (Date.getDate (LocalTZA X) now + 1) in
          let! _ := prisma.update_paidUntil userId endOfDay in
          ret tt
        else ret tt in
      ret (Json 200 Received)
  end.

Definition googleAuthURL : string :=
  ("https://accounts.google.com/o/oauth2/v2/auth?response_type=code&client_id="
   ++ CLIENT_ID env ++ "&redirect_uri=" ++ REDIRECT_URI env
   ++ "&scope=openid%20email")%string.

(** The middleware of [app.use]; [next] runs the rest of the chain with
    [userId] set in the context.  [!token] holds for [undefined], [false]
    and the empty string. *)
Definition middleware (cookie : option string) (now : Z)
    (next : JsValue -> M Response) : M Response :=
  match getSignedCookie X cookie (JWT_SECRET env) "token" with
  | CookieValue token =>
      if String.eqb token "" then
        ret (Json 401 (UserNotAuthenticated googleAuthURL))
      else
        try_catch
          (let! payload := lift (verify X token (JWT_SECRET env) now) in
           next (userId payload))
          (fun _ => ret (Json 401 (InvalidToken googleAuthURL)))
  | _ => ret (Json 401 (UserNotAuthenticated googleAuthURL))
  end.

(** [app.get('/protected', ...)], with [userId] read from the context *)
Definition protected (userId : JsValue) (now : Z) : M Response :=
  let! user := prisma.findUnique_id userId in
  match user with
  | None => ret (Json 404 UserNotFound)
  | Some user =>
      match decide user now with
      | ALLOW =>
          let! _ := prisma.update_request userId now in
          ret (Json 200 YouAreAuthenticated)
      | REQUIRE_PAYMENT =>
          let! url := lift (checkout_sessions_create X env userId) in
          ret (Json 200 (PaymentRequired url))
      end
  end.

(** Hono turns an exception that leaves a handler into its default error
    response; so [await next()] in a middleware does not throw. *)
Definition onError (m : M Response) : M Response :=
  try_catch m (fun _ => ret InternalServerError).

Inductive Request :=
| GET_oauth_callback (code : option string) (newId : string)
| POST_webhook (stripe_signature : option string) (rawBody : string)
| GET_protected (cookie : option string)
| OtherRoute (cookie : option string).

(** The application: routes in registration order.  The two routes above
    [app.use] answer without the middleware; every other path goes through
    it. *)
Definition app (req : Request) (now : Z) : M Response :=
  match req with
  | GET_oauth_callback code newId => onError (oauth_callback code now newId)
  | POST_webhook sig rawBody => onError (webhook sig rawBody now)
  | GET_protected cookie =>
      onError (middleware cookie now (fun uid => onError (protected uid now)))
  | OtherRoute cookie =>
      onError (middleware cookie now (fun _ => ret NotFound))
  end.

(** One request handled at clock reading [now]: the ledger afterwards. *)
Definition step (db : Ledger) (reqnow : Request * Z) : Ledger :=
  snd (fst (app (fst reqnow) (snd reqnow) db)).

(** A run: requests handled one after the other. *)
Definition run (trace : list (Request * Z)) (db : Ledger) : Ledger :=
  fold_left step trace db.

(** The response to one request, and the responses along a run. *)
Definition respond (db : Ledger) (reqnow : Request * Z) : Response :=
  match fst (fst (app (fst reqnow) (snd reqnow) db)) with
  | Ok response => response
  | Throw _ => InternalServerError
  end.

Fixpoint responses (trace : list (Request * Z)) (db : Ledger) : list Response :=
  match trace with
  | [] => []
  | reqnow :: rest => respond db reqnow :: responses rest (step db reqnow)
  end.

End Handlers.

(** ** A concrete instance

    Stand-ins for the third-party code, a set of bindings and a small
    ledger, on which the theorems below are instantiated and the handlers
    evaluated. *)
Module Demo.

Definition env : Bindings :=
  mkBindings "postgres://ledger" "jwt-secret" "client-id" "client-secret"
             "https://api.example.com/oauth/callback" "sk_test_key"
             "https://app.example.com/success" "https://app.example.com/cancel"
             "whsec_test".

(** Tokens are [jwt:<userId>]; [jwt-without-userId] stands for a token that
    carries a correct signature over a payload with no [userId]. *)
Definition verifyToken (token secret : string) (now : Z) : Result JwtPayload :=
  if String.prefix "jwt:" token then
    Ok (mkPayload (JsString (String.substring 4 (String.length token - 4) token)))
  else if String.eqb token "jwt-without-userId" then Ok (mkPayload JsUndefined)
  else Throw (JwtError "token signature mismatched").

(** Raw bodies are [completed:<client reference>] for a completed checkout;
    any other body is an event of another type. *)
Definition parseEvent (rawBody : string) : Result StripeEvent :=
  if String.prefix "completed:" rawBody then
    Ok (mkEvent "checkout.session.completed"
          (mkSession (Some (String.substring 10 (String.length rawBody - 10) rawBody))))
  else Ok (mkEvent "payment_intent.created" (mkSession None)).

Definition X : Externals := {|
  LocalTZA := 0;
  axios_post_token := fun code _ =>
    match code with
    | Some _ => Ok (JsString "access-token")
    | None => Throw (AxiosError "Request failed with status code 400")
    end;
  axios_get_userinfo := fun _ => Ok (JsString "dana@example.com");
  sign := fun uid _ => ("jwt:" ++ uid)%string;
  verify := verifyToken;
  setSignedCookie := fun token _ => ("token=" ++ token)%string;
  getSignedCookie := fun cookie _ _ =>
    match cookie with
    | Some c => CookieValue c
    | None => CookieUndefined
    end;
  verifyHeader := fun _ header _ _ =>
    if String.eqb header "t=1,v1=good" then Ok tt
    else Throw (StripeSignatureVerificationError
                  "No signatures found matching the expected signature for payload.");
  JSON_parse := parseEvent;
  checkout_sessions_create := fun _ _ => Ok (JsString "https://checkout.stripe.com/c/pay")
|}.

(** alice is new, bob has used up the free quota, carol has used it up and
    has paid until 2024-01-02T00:00:00Z. *)
Definition alice : User := mkUser "u1" "alice@example.com" 0 0 0 None.
Definition bob : User := mkUser "u2" "bob@example.com" 0 4 0 None.
Definition carol : User :=
  mkUser "u3" "carol@example.com" 0 10 0 (Some 1704153600000).

Definition db0 : Ledger := <["u1" := alice]> (<["u2" := bob]> (<["u3" := carol]> ∅)).

(** 2024-01-01T12:00:00Z *)
Definition noon : Z := 1704110400000.

End Demo.

(** ** A second instance: failures of the collaborators

    The same stand-ins, except that a cookie [tampered] is read as one whose
    signature is wrong, that every completed checkout comes without a client
    reference, and that the payment provider refuses to create a session. *)
Module Outage.

Definition parseEvent (rawBody : string) : Result StripeEvent :=
  if String.prefix "completed" rawBody then
    Ok (mkEvent "checkout.session.completed" (mkSession None))
  else Ok (mkEvent "payment_intent.created" (mkSession None)).

Definition X : Externals := {|
  LocalTZA := 0;
  axios_post_token := axios_post_token Demo.X;
  axios_get_userinfo := axios_get_userinfo Demo.X;
  sign := sign Demo.X;
  verify := verify Demo.X;
  setSignedCookie := setSignedCookie Demo.X;
  getSignedCookie := fun cookie _ _ =>
    match cookie with
    | Some c => if String.eqb c "tampered" then CookieFalse else CookieValue c
    | None => CookieUndefined
    end;
  verifyHeader := verifyHeader Demo.X;
  JSON_parse := parseEvent;
  checkout_sessions_create := fun _ _ =>
    Throw (StripeError "An error occurred with our connection to Stripe.")
|}.

End Outage.

(** ** Notions the properties are stated with *)

(** The start of the calendar day after the one [now] lies in, at offset
    [tza] from UTC: the reading "start of the next day" of the expiry. *)
Definition startOfNextDay (tza now : Z) : Z :=
  Date.UTC tza ((Date.Day (Date.LocalTime tza now) + 1) * Date.msPerDay).

(** [a] is not later than [b], for optional expiries; an absent expiry is
    earlier than every present one. *)
Definition paidUntil_le (a b : option Z) : Prop :=
  match a, b with
  | None, _ => True
  | Some p, Some q => p <= q
  | Some _, None => False
  end.

(** [paidUntil] is active at [now]. *)
Definition paid_active (u : User) (now : Z) : Prop :=
  exists until, paidUntil u = Some until /\ until > now.

(** The clock readings of a trace never decrease, from [t0] on. *)
Fixpoint clock_nondecreasing (t0 : Z) (trace : list (Request * Z)) : Prop :=
  match trace with
  | [] => True
  | (_, now) :: rest => t0 <= now /\ clock_nondecreasing now rest
  end.

(** From [db] to [db']: every row of [db] is still there and related to its
    new value by [R]; a row that is new in [db'] satisfies [F]. *)
Definition ledger_step (R : User -> User -> Prop) (F : User -> Prop)
    (db db' : Ledger) : Prop :=
  forall uid,
    match db !! uid, db' !! uid with
    | Some u, Some u' => R u u'
    | None, Some u' => F u'
    | Some _, None => False
    | None, None => True
    end.

(** A computation changes the ledger by [R] on the rows it finds and creates
    only rows that satisfy [F]. *)
Definition respects (R : User -> User -> Prop) (F : User -> Prop) {A}
    (m : M A) : Prop :=
  forall db, ledger_step R F db (snd (fst (m db))).

(** What one request at clock reading [now] may do to the expiry of a row:
    leave it, or, for the webhook only, set it to one day after [now]. *)
Definition paidUntil_step (req : Request) (now : Z) (u u' : User) : Prop :=
  paidUntil u' = paidUntil u
  \/ ((exists sig rawBody, req = POST_webhook sig rawBody)
      /\ paidUntil u' = Some (now + Date.msPerDay)).

(** The expiry of a row is at most one day after the clock reading [t]. *)
Definition paidUntil_bounded (t : Z) (u : User) : Prop :=
  forall p, paidUntil u = Some p -> p <= t + Date.msPerDay.

(** ... and so for every row of a ledger. *)
Definition ledger_bounded (t : Z) (db : Ledger) : Prop :=
  forall uid u, db !! uid = Some u -> paidUntil_bounded t u.

(** Each row is stored under its own [id]. *)
Definition ledger_keyed (db : Ledger) : Prop :=
  forall k u, db !! k = Some u -> id u = k.

(** No two rows share an [email]. *)
Definition emails_unique (db : Ledger) : Prop :=
  forall k1 k2 u1 u2,
    db !! k1 = Some u1 -> db !! k2 = Some u2 -> email u1 = email u2 -> k1 = k2.

(** No row of the ledger has the email [mail]. *)
Definition email_free (mail : string) (db : Ledger) : Prop :=
  forall k u, db !! k = Some u -> email u <> mail.

(** Two versions of a row agree on what identifies the user. *)
Definition same_identity (u u' : User) : Prop :=
  id u' = id u /\ email u' = email u /\ createdAt u' = createdAt u.


(** The counter of a row is a non-negative value of its INTEGER column. *)
Definition requestCount_in_range (u : User) : Prop :=
  0 <= requestCount u <= int4_max.

(** Every row of a ledger satisfies [P]. *)
Definition all_rows (P : User -> Prop) (db : Ledger) : Prop :=
  forall k u, db !! k = Some u -> P u.

(** * Properties *)

(** ** Time values *)

(** 2024-02-29T12:00:00Z is in year 2024, month 1 (February), date 29. *)
Example date_leap_day :
  (Date.YearFromTime 1709208000000, Date.MonthFromTime 1709208000000,
   Date.DateFromTime 1709208000000) = (2024, 1, 29).
Proof. reflexivity. Qed.

(** 1969-12-31T23:59:59.999Z, one millisecond before the epoch. *)
Example date_before_epoch :
  (Date.YearFromTime (-1), Date.MonthFromTime (-1), Date.DateFromTime (-1))
  = (1969, 11, 31).
Proof. reflexivity. Qed.

(** [setDate(getDate() + 1)] rolls over the month and the year:
    2023-12-31T08:00:00Z becomes 2024-01-01T08:00:00Z. *)
Example date_rollover :
  Date.setDate 0 1704009600000 (Date.getDate 0 1704009600000 + 1)
  = Some 1704096000000.
Proof. reflexivity. Qed.

Lemma MonthFromTime_range t : 0 <= Date.MonthFromTime t <= 11.
Proof.
  unfold Date.MonthFromTime.
  repeat match goal with |- context [if ?b then _ else _] => destruct b end; lia.
Qed.

Lemma DateFromTime_monthStart t :
  Date.DateFromTime t
  = Date.DayWithinYear t
    - Date.monthStart (Date.MonthFromTime t) (Date.InLeapYear t) + 1.
Proof.
  unfold Date.DateFromTime.
  pose proof (MonthFromTime_range t) as Hm.
  destruct (Date.MonthFromTime t) as [|p|p]; [simpl; lia| |lia].
  do 4 (try destruct p as [p|p|]; try lia); simpl; lia.
Qed.

(** The day built from a time's own year and month and its date plus [k] is
    [k] days after the time's day. *)
Lemma MakeDay_shift t k :
  Date.MakeDay (Date.YearFromTime t) (Date.MonthFromTime t)
    (Date.DateFromTime t + k) = Date.Day t + k.
Proof.
  pose proof (MonthFromTime_range t) as Hm.
  unfold Date.MakeDay.
  rewrite Z.div_small, Z.mod_small, Z.add_0_r by lia.
  rewrite DateFromTime_monthStart.
  unfold Date.DayWithinYear, Date.InLeapYear. lia.
Qed.

(** Advancing the date by one adds exactly one day of milliseconds, at any
    fixed offset from UTC. *)
Lemma setDate_next_day tza tv :
  Date.setDate tza tv (Date.getDate tza tv + 1)
  = Date.TimeClip (tv + Date.msPerDay).
Proof.
  unfold Date.setDate, Date.getDate.
  rewrite MakeDay_shift.
  unfold Date.MakeDate, Date.UTC, Date.LocalTime, Date.Day, Date.TimeWithinDay.
  f_equal.
  pose proof (Z.div_mod (tv + tza) Date.msPerDay) as H.
  unfold Date.msPerDay in *. lia.
Qed.

Lemma YearFromTime_spec t :
  Date.DayFromYear (Date.YearFromTime t) <= Date.Day t
  < Date.DayFromYear (Date.YearFromTime t + 1).
Proof.
  unfold Date.YearFromTime. generalize (Date.Day t). intros d.
  unfold Date.yearDown, Date.DayFromYear.
  repeat match goal with
         | |- context [if ?a <=? ?b then _ else _] => destruct (Z.leb_spec0 a b)
         end;
  Z.div_mod_to_equations; lia.
Qed.


(** ** The access decision *)

Lemma decide_ALLOW user now :
  decide user now = ALLOW <->
  requestCount user < 4
  \/ exists until, paidUntil user = Some until /\ until > now.
Proof.
  unfold decide, FREE_QUOTA.
  destruct (Z.ltb_spec (requestCount user) 4) as [Hq|Hq]; simpl.
  - split; [left; assumption | reflexivity].
  - destruct (paidUntil user) as [until|].
    + destruct (Z.ltb_spec now until) as [Hp|Hp].
      * split; [right; exists until; split; [reflexivity | lia] | reflexivity].
      * split; [discriminate |].
        intros [H | (u & Hu & H)]; [lia |]. injection Hu as <-. lia.
    + split; [discriminate |].
      intros [H | (u & Hu & _)]; [lia | discriminate].
Qed.

Lemma decide_cases user now :
  decide user now = ALLOW \/ decide user now = REQUIRE_PAYMENT.
Proof. unfold decide. destruct (_ || _); [left | right]; reflexivity. Qed.

(** C1. The decision on a User snapshot and the current time is ALLOW exactly
    when [requestCount < 4] or [paidUntil] is present and later than the
    current time; in every other case it is REQUIRE_PAYMENT; a user under
    quota with an active [paidUntil] is allowed. *)
Theorem decide_spec (user : User) (now : Z) :
  (decide user now = ALLOW <->
   requestCount user < 4
   \/ exists until, paidUntil user = Some until /\ until > now)
  /\ (decide user now = REQUIRE_PAYMENT <->
      ~ (requestCount user < 4
         \/ exists until, paidUntil user = Some until /\ until > now))
  /\ (requestCount user < 4 ->
      (exists until, paidUntil user = Some until /\ until > now) ->
      decide user now = ALLOW).
Proof.
  pose proof (decide_ALLOW user now) as HA.
  split; [exact HA |]. split.
  - split.
    + intros HR HC. apply HA in HC. congruence.
    + intros HN. destruct (decide_cases user now) as [H|H]; [|exact H].
      apply HA in H. contradiction.
  - intros Hq _. apply HA. left. exact Hq.
Qed.

(** ** Laws of the handler monad *)

Lemma bind_lift_Ok {A B} (a : A) (k : A -> M B) db :
  bind (lift (Ok a)) k db = k a db.
Proof. unfold bind, lift. destruct (k a db) as [[r d] c]. reflexivity. Qed.

Lemma bind_lift_Throw {A B} (e : Exn) (k : A -> M B) db :
  bind (lift (Throw e)) k db = (Throw e, db, []).
Proof. reflexivity. Qed.

Lemma onError_returns m db :
  exists resp, fst (fst (onError m db)) = Ok resp.
Proof.
  unfold onError, try_catch, ret.
  destruct (m db) as [[[resp|e] d] c]; simpl; eauto.
Qed.

(** A handler under [onError] does not throw, so a [try] around it never
    reaches its [catch]. *)
Lemma try_catch_onError m h db :
  try_catch (onError m) h db = onError m db.
Proof.
  unfold try_catch at 1.
  destruct (onError_returns m db) as [resp Hresp].
  destruct (onError m db) as [[r d] c]. simpl in Hresp. subst r. reflexivity.
Qed.

Lemma onError_Ok m db resp db' calls :
  m db = (Ok resp, db', calls) -> onError m db = (Ok resp, db', calls).
Proof. intros H. unfold onError, try_catch. rewrite H. reflexivity. Qed.

Lemma onError_Throw m db e db' calls :
  m db = (Throw e, db', calls) ->
  onError m db = (Ok InternalServerError, db', calls).
Proof.
  intros H. unfold onError, try_catch. rewrite H. simpl.
  rewrite app_nil_r. reflexivity.
Qed.

(** ** The webhook *)

Lemma webhook_rejected X env sig rawBody now db e :
  constructEventAsync X rawBody sig (STRIPE_WEBHOOK_SECRET env) now = Throw e ->
  webhook X env sig rawBody now db = (Ok (Json 400 WebhookSignatureFailed), db, []).
Proof. intros H. unfold webhook. rewrite H. reflexivity. Qed.

(** C7. A webhook request that fails verification is answered 400 and leaves
    the ledger as it was; the handler makes no Prisma call, so no User row
    is read or written before verification has succeeded. *)
Theorem webhook_failed_verification_no_effect
    (X : Externals) (env : Bindings) (sig : option string) (rawBody : string)
    (now : Z) (db : Ledger) (e : Exn) :
  constructEventAsync X rawBody sig (STRIPE_WEBHOOK_SECRET env) now = Throw e ->
  app X env (POST_webhook sig rawBody) now db
  = (Ok (Json 400 WebhookSignatureFailed), db, []).
Proof.
  intros H. simpl. apply onError_Ok. eapply webhook_rejected. exact H.
Qed.

Lemma webhook_failed_verification_no_effect_witness :
  app Demo.X Demo.env (POST_webhook (Some "t=1,v1=bad") "completed:u2")
      Demo.noon Demo.db0
  = (Ok (Json 400 WebhookSignatureFailed), Demo.db0, []).
Proof.
  eapply webhook_failed_verification_no_effect. reflexivity.
Defined.

(** C10. A webhook request without a [stripe-signature] header is answered
    with the 400 signature-failure response: no exception escapes, nothing
    is acknowledged, and the ledger is neither read nor written. *)
Theorem webhook_missing_signature_header
    (X : Externals) (env : Bindings) (rawBody : string) (now : Z) (db : Ledger) :
  app X env (POST_webhook None rawBody) now db
  = (Ok (Json 400 WebhookSignatureFailed), db, []).
Proof.
  simpl. unfold webhook, constructEventAsync.
  destruct (String.eqb rawBody ""); reflexivity.
Qed.

Lemma webhook_completed X env sig rawBody now db event uid :
  constructEventAsync X rawBody sig (STRIPE_WEBHOOK_SECRET env) now = Ok event ->
  type event = "checkout.session.completed" ->
  client_reference_id (data_object event) = Some uid ->
  webhook X env sig rawBody now db
  = bind (bind (prisma.update_paidUntil (JsString uid)
                  (Date.TimeClip (now + Date.msPerDay)))
               (fun _ => ret tt))
         (fun _ => ret (Json 200 Received)) db.
Proof.
  intros Hev Hty Href. unfold webhook.
  rewrite Hev, Hty, Href, setDate_next_day. reflexivity.
Qed.

(** C4, at the input where the code departs from it: a verified
    completed-checkout event whose client reference is no row of the ledger.
    The update throws, nothing catches it, and the provider gets the
    framework's error response instead of the acknowledgment. *)
Theorem webhook_unknown_user_is_not_acknowledged
    (X : Externals) (env : Bindings) (sig : option string) (rawBody : string)
    (now : Z) (db : Ledger) (event : StripeEvent) (uid : string) :
  constructEventAsync X rawBody sig (STRIPE_WEBHOOK_SECRET env) now = Ok event ->
  type event = "checkout.session.completed" ->
  client_reference_id (data_object event) = Some uid ->
  db !! uid = None ->
  app X env (POST_webhook sig rawBody) now db
  = (Ok InternalServerError, db,
     [UpdatePaidUntil (JsString uid) (Date.TimeClip (now + Date.msPerDay))]).
Proof.
  intros Hev Hty Href Hdb. simpl.
  destruct (Date.TimeClip (now + Date.msPerDay)) as [t|] eqn:Ht.
  - apply onError_Throw with (e := PrismaRecordNotFound).
    rewrite (webhook_completed _ _ _ _ _ _ _ _ Hev Hty Href), Ht.
    unfold bind, prisma.update_paidUntil. rewrite Hdb. reflexivity.
  - apply onError_Throw with (e := PrismaValidationError).
    rewrite (webhook_completed _ _ _ _ _ _ _ _ Hev Hty Href), Ht.
    reflexivity.
Qed.

Lemma webhook_unknown_user_is_not_acknowledged_witness :
  app Demo.X Demo.env (POST_webhook (Some "t=1,v1=good") "completed:ghost")
      Demo.noon Demo.db0
  = (Ok InternalServerError, Demo.db0,
     [UpdatePaidUntil (JsString "ghost")
        (Date.TimeClip (Demo.noon + Date.msPerDay))]).
Proof.
  apply (webhook_unknown_user_is_not_acknowledged Demo.X Demo.env
           (Some "t=1,v1=good") "completed:ghost" Demo.noon Demo.db0
           (mkEvent "checkout.session.completed" (mkSession (Some "ghost")))
           "ghost");
    reflexivity.
Defined.

(** C5, as the code has it. A verified completed-checkout event for a user
    of the ledger sets that user's [paidUntil] to the moment the event is
    processed plus one day (the same time of day on the next calendar day),
    is acknowledged, and changes nothing else. *)
Theorem webhook_sets_paidUntil_one_day_ahead
    (X : Externals) (env : Bindings) (sig : option string) (rawBody : string)
    (now : Z) (db : Ledger) (event : StripeEvent) (uid : string) (user : User) :
  constructEventAsync X rawBody sig (STRIPE_WEBHOOK_SECRET env) now = Ok event ->
  type event = "checkout.session.completed" ->
  client_reference_id (data_object event) = Some uid ->
  db !! uid = Some user ->
  Z.abs (now + Date.msPerDay) <= Date.maxTime ->
  app X env (POST_webhook sig rawBody) now db
  = (Ok (Json 200 Received),
     <[uid := prisma.extendPaidUntil user (now + Date.msPerDay)]> db,
     [UpdatePaidUntil (JsString uid) (Some (now + Date.msPerDay))]).
Proof.
  intros Hev Hty Href Hdb Hrange. simpl. apply onError_Ok.
  rewrite (webhook_completed _ _ _ _ _ _ _ _ Hev Hty Href).
  unfold Date.TimeClip. destruct (Z.leb_spec (Z.abs (now + Date.msPerDay)) Date.maxTime); [|lia].
  unfold bind, prisma.update_paidUntil. rewrite Hdb. reflexivity.
Qed.

Lemma webhook_sets_paidUntil_one_day_ahead_witness :
  app Demo.X Demo.env (POST_webhook (Some "t=1,v1=good") "completed:u2")
      Demo.noon Demo.db0
  = (Ok (Json 200 Received),
     <["u2" := prisma.extendPaidUntil Demo.bob (Demo.noon + Date.msPerDay)]> Demo.db0,
     [UpdatePaidUntil (JsString "u2") (Some (Demo.noon + Date.msPerDay))]).
Proof.
  apply (webhook_sets_paidUntil_one_day_ahead Demo.X Demo.env
           (Some "t=1,v1=good") "completed:u2" Demo.noon Demo.db0
           (mkEvent "checkout.session.completed" (mkSession (Some "u2")))
           "u2" Demo.bob);
    [reflexivity | reflexivity | reflexivity | reflexivity | vm_compute; discriminate].
Defined.

(** C5 as stated fails: an event processed at 2024-01-01T12:00:00Z sets
    [paidUntil] to 2024-01-02T12:00:00Z, which is not the start of the next
    calendar day, 2024-01-02T00:00:00Z. *)
Lemma webhook_paidUntil_is_not_start_of_next_day :
  paidUntil <$>
    (step Demo.X Demo.env Demo.db0
       (POST_webhook (Some "t=1,v1=good") "completed:u2", Demo.noon)
     !! "u2")
  = Some (Some 1704196800000)
  /\ startOfNextDay (LocalTZA Demo.X) Demo.noon = 1704153600000.
Proof. split; vm_compute; reflexivity. Qed.

(** ** The protected route *)

Lemma protected_found X env uid user now db :
  db !! uid = Some user ->
  protected X env (JsString uid) now db
  = match decide user now with
    | ALLOW =>
        let '(r, db', calls) :=
          bind (prisma.update_request (JsString uid) now)
               (fun _ => ret (Json 200 YouAreAuthenticated)) db in
        (r, db', FindUniqueById (JsString uid) :: calls)
    | REQUIRE_PAYMENT =>
        let '(r, db', calls) :=
          bind (lift (checkout_sessions_create X env (JsString uid)))
               (fun url => ret (Json 200 (PaymentRequired url))) db in
        (r, db', FindUniqueById (JsString uid) :: calls)
    end.
Proof.
  intros Hdb. unfold protected. unfold bind at 1.
  unfold prisma.findUnique_id. rewrite Hdb.
  destruct (decide user now); reflexivity.
Qed.

Lemma protected_ALLOW X env uid user now db :
  db !! uid = Some user ->
  decide user now = ALLOW ->
  requestCount user < int4_max ->
  protected X env (JsString uid) now db
  = (Ok (Json 200 YouAreAuthenticated),
     <[uid := prisma.recordAllowedRequest user now]> db,
     [FindUniqueById (JsString uid); UpdateRequestCount (JsString uid) now]).
Proof.
  intros Hdb Hdec Hmax. rewrite (protected_found _ _ _ _ _ _ Hdb), Hdec.
  unfold bind, prisma.update_request. rewrite Hdb.
  destruct (Z.leb_spec (requestCount user + 1) int4_max); [reflexivity | lia].
Qed.

Lemma protected_REQUIRE_PAYMENT X env uid user now db :
  db !! uid = Some user ->
  decide user now = REQUIRE_PAYMENT ->
  protected X env (JsString uid) now db
  = (match checkout_sessions_create X env (JsString uid) with
     | Ok url => Ok (Json 200 (PaymentRequired url))
     | Throw e => Throw e
     end, db, [FindUniqueById (JsString uid)]).
Proof.
  intros Hdb Hdec. rewrite (protected_found _ _ _ _ _ _ Hdb), Hdec.
  unfold bind, lift, ret.
  destruct (checkout_sessions_create X env (JsString uid)); reflexivity.
Qed.

(** At the ceiling of the INTEGER column the increment is refused by the
    database: the request ends in an exception and writes nothing. *)
Lemma protected_ALLOW_at_ceiling X env uid user now db :
  db !! uid = Some user ->
  decide user now = ALLOW ->
  int4_max <= requestCount user ->
  protected X env (JsString uid) now db
  = (Throw PrismaIntegerOutOfRange, db,
     [FindUniqueById (JsString uid); UpdateRequestCount (JsString uid) now]).
Proof.
  intros Hdb Hdec Hmax. rewrite (protected_found _ _ _ _ _ _ Hdb), Hdec.
  unfold bind, prisma.update_request. rewrite Hdb.
  destruct (Z.leb_spec (requestCount user + 1) int4_max); [lia | reflexivity].
Qed.

(** C2. For a user of the ledger and a handled [/protected] request: on
    ALLOW (the counter being below the ceiling of its INTEGER column, so
    that the database accepts the increment) the user's row becomes the same
    row with [requestCount] one higher and [lastLogin] the request's time,
    and no other row changes; on REQUIRE_PAYMENT the ledger is unchanged,
    every field of every row, and the only Prisma call is the read. *)
Theorem protected_ledger_effect
    (X : Externals) (env : Bindings) (db : Ledger) (uid : string) (user : User)
    (now : Z) :
  db !! uid = Some user ->
  (decide user now = ALLOW ->
   requestCount user < int4_max ->
   exists user',
     protected X env (JsString uid) now db
     = (Ok (Json 200 YouAreAuthenticated), <[uid := user']> db,
        [FindUniqueById (JsString uid); UpdateRequestCount (JsString uid) now])
     /\ requestCount user' = requestCount user + 1
     /\ lastLogin user' = now
     /\ paidUntil user' = paidUntil user
     /\ id user' = id user /\ email user' = email user
     /\ createdAt user' = createdAt user)
  /\ (decide user now = REQUIRE_PAYMENT ->
      snd (fst (protected X env (JsString uid) now db)) = db
      /\ snd (protected X env (JsString uid) now db)
         = [FindUniqueById (JsString uid)]
      /\ fst (fst (protected X env (JsString uid) now db))
         <> Ok (Json 200 YouAreAuthenticated)).
Proof.
  intros Hdb. split.
  - intros Hdec Hmax. exists (prisma.recordAllowedRequest user now).
    rewrite (protected_ALLOW _ _ _ _ _ _ Hdb Hdec Hmax).
    repeat split.
  - intros Hdec. rewrite (protected_REQUIRE_PAYMENT _ _ _ _ _ _ Hdb Hdec).
    repeat split. simpl.
    destruct (checkout_sessions_create X env (JsString uid)); discriminate.
Qed.

Lemma protected_ledger_effect_witness :
  (decide Demo.alice Demo.noon = ALLOW ->
   requestCount Demo.alice < int4_max ->
   exists user',
     protected Demo.X Demo.env (JsString "u1") Demo.noon Demo.db0
     = (Ok (Json 200 YouAreAuthenticated), <["u1" := user']> Demo.db0,
        [FindUniqueById (JsString "u1");
         UpdateRequestCount (JsString "u1") Demo.noon])
     /\ requestCount user' = requestCount Demo.alice + 1
     /\ lastLogin user' = Demo.noon
     /\ paidUntil user' = paidUntil Demo.alice
     /\ id user' = id Demo.alice /\ email user' = email Demo.alice
     /\ createdAt user' = createdAt Demo.alice)
  /\ (decide Demo.alice Demo.noon = REQUIRE_PAYMENT ->
      snd (fst (protected Demo.X Demo.env (JsString "u1") Demo.noon Demo.db0))
      = Demo.db0
      /\ snd (protected Demo.X Demo.env (JsString "u1") Demo.noon Demo.db0)
         = [FindUniqueById (JsString "u1")]
      /\ fst (fst (protected Demo.X Demo.env (JsString "u1") Demo.noon Demo.db0))
         <> Ok (Json 200 YouAreAuthenticated)).
Proof.
  apply (protected_ledger_effect Demo.X Demo.env Demo.db0 "u1" Demo.alice
           Demo.noon); reflexivity.
Defined.

(** C9, as the code has it. [requestCount] counts every allowed request: a
    request that is allowed only because [paidUntil] is active (the counter
    is at or above 4) increases [requestCount] by one like any other allowed
    request. *)
Theorem paid_request_increments_requestCount
    (X : Externals) (env : Bindings) (db : Ledger) (uid : string) (user : User)
    (now : Z) :
  db !! uid = Some user ->
  FREE_QUOTA <= requestCount user < int4_max ->
  paid_active user now ->
  decide user now = ALLOW
  /\ protected X env (JsString uid) now db
     = (Ok (Json 200 YouAreAuthenticated),
        <[uid := prisma.recordAllowedRequest user now]> db,
        [FindUniqueById (JsString uid); UpdateRequestCount (JsString uid) now])
  /\ requestCount (prisma.recordAllowedRequest user now) = requestCount user + 1.
Proof.
  intros Hdb [Hq Hmax] Hpaid.
  assert (Hdec : decide user now = ALLOW) by (apply decide_ALLOW; right; exact Hpaid).
  split; [exact Hdec |]. split; [|reflexivity].
  apply protected_ALLOW; assumption.
Qed.

Lemma paid_request_increments_requestCount_witness :
  decide Demo.carol Demo.noon = ALLOW
  /\ protected Demo.X Demo.env (JsString "u3") Demo.noon Demo.db0
     = (Ok (Json 200 YouAreAuthenticated),
        <["u3" := prisma.recordAllowedRequest Demo.carol Demo.noon]> Demo.db0,
        [FindUniqueById (JsString "u3");
         UpdateRequestCount (JsString "u3") Demo.noon])
  /\ requestCount (prisma.recordAllowedRequest Demo.carol Demo.noon)
     = requestCount Demo.carol + 1.
Proof.
  apply (paid_request_increments_requestCount Demo.X Demo.env Demo.db0 "u3"
           Demo.carol Demo.noon).
  - reflexivity.
  - split; vm_compute; [discriminate | reflexivity].
  - exists 1704153600000. split; [reflexivity | vm_compute; reflexivity].
Defined.

(** C9 as stated fails: carol has used 10 requests, above the free quota of
    4, and is allowed at 2024-01-01T12:00:00Z only because her [paidUntil]
    is active; the request raises her [requestCount] from 10 to 11. *)
Lemma paid_request_consumes_quota :
  requestCount Demo.carol = 10
  /\ paid_active Demo.carol Demo.noon
  /\ requestCount <$>
       (step Demo.X Demo.env Demo.db0 (GET_protected (Some "jwt:u3"), Demo.noon)
        !! "u3")
     = Some 11.
Proof.
  split; [reflexivity |]. split; [|vm_compute; reflexivity].
  exists 1704153600000. split; [reflexivity | vm_compute; reflexivity].
Qed.

(** ** The authentication middleware *)

Lemma middleware_invalid_token X env cookie now next token e db :
  getSignedCookie X cookie (JWT_SECRET env) "token" = CookieValue token ->
  token <> "" ->
  verify X token (JWT_SECRET env) now = Throw e ->
  middleware X env cookie now next db
  = (Ok (Json 401 (InvalidToken (googleAuthURL env))), db, []).
Proof.
  intros Hc Hne Hv. unfold middleware. rewrite Hc.
  destruct (String.eqb_spec token ""); [contradiction |].
  unfold try_catch. rewrite Hv. reflexivity.
Qed.

Lemma middleware_verified X env cookie now next token payload db :
  getSignedCookie X cookie (JWT_SECRET env) "token" = CookieValue token ->
  token <> "" ->
  verify X token (JWT_SECRET env) now = Ok payload ->
  middleware X env cookie now (fun uid => onError (next uid)) db
  = onError (next (userId payload)) db.
Proof.
  intros Hc Hne Hv. unfold middleware. rewrite Hc.
  destruct (String.eqb_spec token ""); [contradiction |].
  rewrite Hv.
  transitivity (try_catch (onError (next (userId payload)))
                  (fun _ => ret (Json 401 (InvalidToken (googleAuthURL env)))) db).
  - unfold try_catch. rewrite bind_lift_Ok. reflexivity.
  - apply try_catch_onError.
Qed.

(** C6, as the code has it. With a session cookie present: when [verify]
    rejects the token (its signature does not verify, or it is no
    well-formed token), the middleware answers 401 'Invalid token' and does
    not run the rest of the chain, whatever that is; when [verify] accepts
    it, the [userId] of the payload, whatever value it is, is put into the
    request context and the protected handler runs with it. The payload is
    not inspected beyond what [verify] does. *)
Theorem middleware_verification
    (X : Externals) (env : Bindings) (cookie : option string) (now : Z)
    (token : string) (db : Ledger) :
  getSignedCookie X cookie (JWT_SECRET env) "token" = CookieValue token ->
  token <> "" ->
  (forall e, verify X token (JWT_SECRET env) now = Throw e ->
     (forall next,
        middleware X env cookie now next db
        = (Ok (Json 401 (InvalidToken (googleAuthURL env))), db, []))
     /\ app X env (GET_protected cookie) now db
        = (Ok (Json 401 (InvalidToken (googleAuthURL env))), db, []))
  /\ (forall payload, verify X token (JWT_SECRET env) now = Ok payload ->
      app X env (GET_protected cookie) now db
      = onError (protected X env (userId payload) now) db).
Proof.
  intros Hc Hne. split.
  - intros e Hv. split.
    + intros next. eapply middleware_invalid_token; eassumption.
    + simpl. apply onError_Ok. eapply middleware_invalid_token; eassumption.
  - intros payload Hv. unfold app.
    pose proof (middleware_verified X env cookie now
                  (fun uid => protected X env uid now) token payload db
                  Hc Hne Hv) as Hm.
    simpl in Hm.
    destruct (onError_returns (protected X env (userId payload) now) db)
      as [resp Hresp].
    destruct (onError (protected X env (userId payload) now) db)
      as [[r d] c] eqn:E.
    simpl in Hresp. subst r. apply onError_Ok. exact Hm.
Qed.

Lemma middleware_verification_witness :
  (forall e, verify Demo.X "forged" (JWT_SECRET Demo.env) Demo.noon = Throw e ->
     (forall next,
        middleware Demo.X Demo.env (Some "forged") Demo.noon next Demo.db0
        = (Ok (Json 401 (InvalidToken (googleAuthURL Demo.env))), Demo.db0, []))
     /\ app Demo.X Demo.env (GET_protected (Some "forged")) Demo.noon Demo.db0
        = (Ok (Json 401 (InvalidToken (googleAuthURL Demo.env))), Demo.db0, []))
  /\ (forall payload,
      verify Demo.X "forged" (JWT_SECRET Demo.env) Demo.noon = Ok payload ->
      app Demo.X Demo.env (GET_protected (Some "forged")) Demo.noon Demo.db0
      = onError (protected Demo.X Demo.env (userId payload) Demo.noon) Demo.db0).
Proof.
  apply (middleware_verification Demo.X Demo.env (Some "forged") Demo.noon
           "forged" Demo.db0); [reflexivity | discriminate].
Defined.

(** C6 as stated fails: a token that [verify] accepts and whose payload has
    no [userId] is not answered 401 'Invalid token'. The middleware puts
    [undefined] into the context and the protected handler runs: it calls
    [findUnique] with that value. *)
Lemma token_without_userId_reaches_handler :
  verify Demo.X "jwt-without-userId" (JWT_SECRET Demo.env) Demo.noon
  = Ok (mkPayload JsUndefined)
  /\ app Demo.X Demo.env (GET_protected (Some "jwt-without-userId")) Demo.noon
         Demo.db0
     = (Ok InternalServerError, Demo.db0, [FindUniqueById JsUndefined]).
Proof. split; reflexivity. Qed.

(** ** What a request can do to a row *)
Section Frame.

Variable R : User -> User -> Prop.
Variable F : User -> Prop.
Hypothesis R_refl : forall u, R u u.
Hypothesis R_trans : forall a b c, R a b -> R b c -> R a c.
Hypothesis F_R : forall u u', F u -> R u u' -> F u'.
Hypothesis F_new : forall newId mail now, F (mkUser newId mail now 0 now None).

Lemma ledger_step_refl db : ledger_step R F db db.
Proof. intros uid. destruct (db !! uid); auto. Qed.

Lemma ledger_step_trans db1 db2 db3 :
  ledger_step R F db1 db2 -> ledger_step R F db2 db3 -> ledger_step R F db1 db3.
Proof.
  intros H12 H23 uid. specialize (H12 uid). specialize (H23 uid).
  destruct (db1 !! uid), (db2 !! uid), (db3 !! uid); eauto; contradiction.
Qed.

Lemma ledger_step_insert db uid u u' :
  db !! uid = Some u -> R u u' -> ledger_step R F db (<[uid := u']> db).
Proof.
  intros Hdb HR k. destruct (string_dec uid k) as [->|Hne].
  - rewrite lookup_insert_eq, Hdb. exact HR.
  - rewrite lookup_insert_ne by exact Hne. destruct (db !! k); auto.
Qed.

Lemma ledger_step_insert_fresh db uid u' :
  db !! uid = None -> F u' -> ledger_step R F db (<[uid := u']> db).
Proof.
  intros Hdb HF k. destruct (string_dec uid k) as [->|Hne].
  - rewrite lookup_insert_eq, Hdb. exact HF.
  - rewrite lookup_insert_ne by exact Hne. destruct (db !! k); auto.
Qed.

Lemma respects_ret {A} (a : A) : respects R F (ret a).
Proof. intros db. apply ledger_step_refl. Qed.

Lemma respects_throw {A} e : respects R F (@throw A e).
Proof. intros db. apply ledger_step_refl. Qed.

Lemma respects_lift {A} (r : Result A) : respects R F (lift r).
Proof. intros db. apply ledger_step_refl. Qed.

Lemma respects_bind {A B} (m : M A) (k : A -> M B) :
  respects R F m -> (forall a, respects R F (k a)) -> respects R F (bind m k).
Proof.
  intros Hm Hk db. unfold bind. specialize (Hm db).
  destruct (m db) as [[[a|e] db1] c1]; simpl in *; [|exact Hm].
  specialize (Hk a db1). destruct (k a db1) as [[r db2] c2]. simpl in *.
  eapply ledger_step_trans; eassumption.
Qed.

Lemma respects_try_catch {A} (m : M A) (h : Exn -> M A) :
  respects R F m -> (forall e, respects R F (h e)) ->
  respects R F (try_catch m h).
Proof.
  intros Hm Hh db. unfold try_catch. specialize (Hm db).
  destruct (m db) as [[[a|e] db1] c1]; simpl in *; [exact Hm|].
  specialize (Hh e db1). destruct (h e db1) as [[r db2] c2]. simpl in *.
  eapply ledger_step_trans; eassumption.
Qed.

Lemma respects_findUnique_id v : respects R F (prisma.findUnique_id v).
Proof. intros db. destruct v; apply ledger_step_refl. Qed.

Lemma respects_findUnique_email v : respects R F (prisma.findUnique_email v).
Proof. intros db. destruct v; apply ledger_step_refl. Qed.

Lemma respects_create mail now newId :
  respects R F (prisma.create mail now newId).
Proof.
  intros db. unfold prisma.create.
  destruct (db !! newId) eqn:Hid; [apply ledger_step_refl|].
  destruct (list_find _ _); [apply ledger_step_refl|].
  simpl. apply ledger_step_insert_fresh; [exact Hid | apply F_new].
Qed.

Lemma respects_update_request v now :
  (forall u, R u (prisma.recordAllowedRequest u now)) ->
  respects R F (prisma.update_request v now).
Proof.
  intros HR db. unfold prisma.update_request.
  destruct v; try apply ledger_step_refl.
  destruct (db !! s) as [u|] eqn:Hdb; [|apply ledger_step_refl].
  destruct (_ <=? _); [|apply ledger_step_refl].
  simpl. eapply ledger_step_insert; eauto.
Qed.

Lemma respects_update_paidUntil v until :
  (forall u t, until = Some t -> R u (prisma.extendPaidUntil u t)) ->
  respects R F (prisma.update_paidUntil v until).
Proof.
  intros HR db. unfold prisma.update_paidUntil.
  destruct v; try apply ledger_step_refl.
  destruct until as [t|]; [|apply ledger_step_refl].
  destruct (db !! s) as [u|] eqn:Hdb; [|apply ledger_step_refl].
  simpl. eapply ledger_step_insert; eauto.
Qed.

Variable X : Externals.
Variable env : Bindings.

Lemma respects_onError m : respects R F m -> respects R F (onError m).
Proof.
  intros Hm. apply respects_try_catch; [exact Hm|].
  intros e. apply respects_ret.
Qed.

Lemma respects_oauth_callback code now newId :
  respects R F (oauth_callback X env code now newId).
Proof.
  unfold oauth_callback. apply respects_try_catch.
  - apply respects_bind; [apply respects_lift|]. intros tok.
    apply respects_bind; [apply respects_lift|]. intros mail.
    apply respects_bind; [apply respects_findUnique_email|]. intros found.
    apply respects_bind; [|intros u; apply respects_ret].
    destruct found; [apply respects_ret|].
    destruct mail; try apply respects_throw. apply respects_create.
  - intros e. apply respects_ret.
Qed.

Lemma respects_webhook sig rawBody now :
  (forall u, R u (prisma.extendPaidUntil u (now + Date.msPerDay))) ->
  respects R F (webhook X env sig rawBody now).
Proof.
  intros HR. unfold webhook.
  destruct (constructEventAsync _ _ _ _ _) as [event|e]; [|apply respects_ret].
  apply respects_bind; [|intros; apply respects_ret].
  destruct (String.eqb _ _); [|apply respects_ret].
  apply respects_bind; [|intros; apply respects_ret].
  apply respects_update_paidUntil. intros u t Ht.
  rewrite setDate_next_day in Ht. unfold Date.TimeClip in Ht.
  destruct (_ <=? _); [|discriminate]. injection Ht as <-. apply HR.
Qed.

Lemma respects_protected v now :
  (forall u, R u (prisma.recordAllowedRequest u now)) ->
  respects R F (protected X env v now).
Proof.
  intros HR. unfold protected.
  apply respects_bind; [apply respects_findUnique_id|]. intros [user|].
  - destruct (decide user now).
    + apply respects_bind; [|intros; apply respects_ret].
      apply respects_update_request. exact HR.
    + apply respects_bind; [apply respects_lift|]. intros; apply respects_ret.
  - apply respects_ret.
Qed.

Lemma respects_middleware cookie now next :
  (forall v, respects R F (next v)) ->
  respects R F (middleware X env cookie now next).
Proof.
  intros Hnext. unfold middleware.
  destruct (getSignedCookie _ _ _ _); try apply respects_ret.
  destruct (String.eqb _ _); [apply respects_ret|].
  apply respects_try_catch; [|intros; apply respects_ret].
  apply respects_bind; [apply respects_lift|]. intros p. apply Hnext.
Qed.

(** Over the whole application: a [/protected] request may only record an
    allowed request, the webhook may only set the expiry to one day after
    its clock reading, and only the OAuth callback creates a row. *)
Lemma respects_app req now :
  (forall cookie, req = GET_protected cookie ->
     forall u, R u (prisma.recordAllowedRequest u now)) ->
  (forall sig rawBody, req = POST_webhook sig rawBody ->
     forall u, R u (prisma.extendPaidUntil u (now + Date.msPerDay))) ->
  respects R F (app X env req now).
Proof.
  intros Hp Hw. destruct req as [code newId|sig rawBody|cookie|cookie]; simpl.
  - apply respects_onError, respects_oauth_callback.
  - apply respects_onError, respects_webhook. eapply Hw. reflexivity.
  - apply respects_onError, respects_middleware. intros v.
    apply respects_onError, respects_protected. eapply Hp. reflexivity.
  - apply respects_onError, respects_middleware. intros v. apply respects_ret.
Qed.

End Frame.

Lemma ledger_step_forward R F db db' uid u :
  ledger_step R F db db' -> db !! uid = Some u ->
  exists u', db' !! uid = Some u' /\ R u u'.
Proof.
  intros H Hdb. specialize (H uid). rewrite Hdb in H.
  destruct (db' !! uid) as [u'|]; [eauto | contradiction].
Qed.

Lemma ledger_step_backward R F db db' uid u' :
  ledger_step R F db db' -> db' !! uid = Some u' ->
  (exists u, db !! uid = Some u /\ R u u') \/ (db !! uid = None /\ F u').
Proof.
  intros H Hdb'. specialize (H uid). rewrite Hdb' in H.
  destruct (db !! uid) as [u|]; [left; eauto | right; auto].
Qed.

(** ** The quota over runs *)

Lemma run_cons X env a trace db :
  run X env (a :: trace) db = run X env trace (step X env db a).
Proof. reflexivity. Qed.

(** No request removes a row or lowers its [requestCount]. *)
Lemma step_requestCount_mono X env db req now :
  ledger_step (fun u u' => requestCount u <= requestCount u') (fun _ => True)
              db (step X env db (req, now)).
Proof.
  unfold step. simpl. apply respects_app.
  - intros; lia.
  - intros; lia.
  - trivial.
  - trivial.
  - intros _ _ u. simpl. lia.
  - intros _ _ _ u. simpl. lia.
Qed.

Lemma run_requestCount_mono X env trace db uid u :
  db !! uid = Some u ->
  exists u', run X env trace db !! uid = Some u'
             /\ requestCount u <= requestCount u'.
Proof.
  revert db u. induction trace as [|[req now] trace IH]; intros db u H.
  - exists u. split; [exact H | lia].
  - rewrite run_cons.
    destruct (ledger_step_forward _ _ _ _ uid u
                (step_requestCount_mono X env db req now) H) as (u1 & H1 & L1).
    destruct (IH _ u1 H1) as (u2 & H2 & L2).
    exists u2. split; [exact H2 | lia].
Qed.

(** C8. Once a user's [requestCount] has reached the free quota, it stays at
    or above it after any run of requests, whatever they are: no operation
    lowers or resets the counter, and the row stays in the ledger. In the
    state a run leads to, at every time at which the user's [paidUntil] is
    not active, the decision is REQUIRE_PAYMENT and a [/protected] request of
    that user is not answered with the ALLOW response and writes nothing. *)
Theorem quota_exhausted_forever
    (X : Externals) (env : Bindings) (trace : list (Request * Z)) (db : Ledger)
    (uid : string) (user : User) :
  db !! uid = Some user ->
  FREE_QUOTA <= requestCount user ->
  exists user',
    run X env trace db !! uid = Some user'
    /\ requestCount user <= requestCount user'
    /\ forall now,
         ~ paid_active user' now ->
         decide user' now = REQUIRE_PAYMENT
         /\ snd (fst (protected X env (JsString uid) now (run X env trace db)))
            = run X env trace db
         /\ fst (fst (protected X env (JsString uid) now (run X env trace db)))
            <> Ok (Json 200 YouAreAuthenticated).
Proof.
  intros Hdb Hq.
  destruct (run_requestCount_mono X env trace db uid user Hdb) as (u' & Hu' & Hle).
  exists u'. split; [exact Hu'|]. split; [exact Hle|].
  intros now Hnp.
  assert (Hdec : decide u' now = REQUIRE_PAYMENT).
  { destruct (decide_cases u' now) as [HA|HR]; [|exact HR].
    apply decide_ALLOW in HA. destruct HA as [HA|HA].
    - unfold FREE_QUOTA in Hq. lia.
    - contradiction. }
  split; [exact Hdec|].
  rewrite (protected_REQUIRE_PAYMENT _ _ _ _ _ _ Hu' Hdec). simpl.
  split; [reflexivity|].
  destruct (checkout_sessions_create X env (JsString uid)); discriminate.
Qed.

Lemma quota_exhausted_forever_witness :
  exists user',
    run Demo.X Demo.env
        [(GET_protected (Some "jwt:u2"), Demo.noon);
         (GET_oauth_callback (Some "code") "u9", Demo.noon + 1);
         (POST_webhook (Some "t=1,v1=good") "completed:u1", Demo.noon + 2)]
        Demo.db0 !! "u2" = Some user'
    /\ requestCount Demo.bob <= requestCount user'
    /\ forall now,
         ~ paid_active user' now ->
         decide user' now = REQUIRE_PAYMENT
         /\ snd (fst (protected Demo.X Demo.env (JsString "u2") now
                        (run Demo.X Demo.env
                           [(GET_protected (Some "jwt:u2"), Demo.noon);
                            (GET_oauth_callback (Some "code") "u9", Demo.noon + 1);
                            (POST_webhook (Some "t=1,v1=good") "completed:u1",
                             Demo.noon + 2)]
                           Demo.db0)))
            = run Demo.X Demo.env
                [(GET_protected (Some "jwt:u2"), Demo.noon);
                 (GET_oauth_callback (Some "code") "u9", Demo.noon + 1);
                 (POST_webhook (Some "t=1,v1=good") "completed:u1", Demo.noon + 2)]
                Demo.db0
         /\ fst (fst (protected Demo.X Demo.env (JsString "u2") now
                        (run Demo.X Demo.env
                           [(GET_protected (Some "jwt:u2"), Demo.noon);
                            (GET_oauth_callback (Some "code") "u9", Demo.noon + 1);
                            (POST_webhook (Some "t=1,v1=good") "completed:u1",
                             Demo.noon + 2)]
                           Demo.db0)))
            <> Ok (Json 200 YouAreAuthenticated).
Proof.
  apply (quota_exhausted_forever Demo.X Demo.env
           [(GET_protected (Some "jwt:u2"), Demo.noon);
            (GET_oauth_callback (Some "code") "u9", Demo.noon + 1);
            (POST_webhook (Some "t=1,v1=good") "completed:u1", Demo.noon + 2)]
           Demo.db0 "u2" Demo.bob);
    [reflexivity | vm_compute; discriminate].
Defined.

(** ** The expiry over runs *)

Lemma paidUntil_step_refl req now u : paidUntil_step req now u u.
Proof. left. reflexivity. Qed.

Lemma paidUntil_step_trans req now a b c :
  paidUntil_step req now a b -> paidUntil_step req now b c ->
  paidUntil_step req now a c.
Proof.
  unfold paidUntil_step. intros [Hab|[Hw Hab]] [Hbc|[Hw' Hbc]].
  - left. congruence.
  - right. split; assumption.
  - right. split; [assumption | congruence].
  - right. split; assumption.
Qed.

Lemma paidUntil_step_bounded req now t u u' :
  paidUntil_bounded t u -> t <= now -> paidUntil_step req now u u' ->
  paidUntil_bounded now u' /\ paidUntil_le (paidUntil u) (paidUntil u').
Proof.
  unfold paidUntil_bounded, paidUntil_le. intros Hb Ht [He|[_ He]]; rewrite He.
  - split.
    + intros p Hp. specialize (Hb p Hp). lia.
    + destruct (paidUntil u); [lia | exact I].
  - split.
    + intros p Hp. injection Hp as <-. lia.
    + destruct (paidUntil u) as [p|]; [|exact I]. specialize (Hb p eq_refl). lia.
Qed.

(** Only the webhook writes [paidUntil], and it writes its clock reading
    plus one day, whatever the row held; a row that a request creates has an
    expiry within one day of the clock (it has none). *)
Lemma step_paidUntil X env db req now :
  ledger_step (paidUntil_step req now) (paidUntil_bounded now)
              db (step X env db (req, now)).
Proof.
  unfold step. simpl. apply respects_app.
  - apply paidUntil_step_refl.
  - apply paidUntil_step_trans.
  - intros u u' HF HR.
    exact (proj1 (paidUntil_step_bounded req now now u u' HF (Z.le_refl _) HR)).
  - intros newId mail t p Hp. discriminate Hp.
  - intros cookie _ u. left. reflexivity.
  - intros sig rawBody Hreq u. right. split; [eauto | reflexivity].
Qed.

Lemma step_ledger_bounded X env db req now t :
  ledger_bounded t db -> t <= now ->
  ledger_bounded now (step X env db (req, now)).
Proof.
  intros Hb Ht uid u' Hu'.
  destruct (ledger_step_backward _ _ _ _ uid u' (step_paidUntil X env db req now) Hu')
    as [(u & Hu & Hs)|[_ HF]]; [|exact HF].
  exact (proj1 (paidUntil_step_bounded req now t u u' (Hb uid u Hu) Ht Hs)).
Qed.

Lemma run_ledger_bounded X env pre rest db t0 :
  ledger_bounded t0 db ->
  clock_nondecreasing t0 (pre ++ rest) ->
  exists t, ledger_bounded t (run X env pre db) /\ clock_nondecreasing t rest.
Proof.
  revert db t0. induction pre as [|[req now] pre IH]; intros db t0 Hb Hc.
  - exists t0. auto.
  - simpl in Hc. destruct Hc as [Ht Hc]. rewrite run_cons.
    exact (IH _ now (step_ledger_bounded X env db req now t0 Hb Ht) Hc).
Qed.

(** C3, as the code has it. A request either leaves a user's [paidUntil] as
    it is or, for the webhook only, overwrites it with the clock reading at
    which the event is processed plus one day, without looking at the stored
    value. So along a run whose clock readings never decrease, from a ledger
    in which every [paidUntil] is absent or at most one day ahead of the
    clock (the empty ledger is one), no request moves the [paidUntil] of any
    user backward, and no user is removed. *)
Theorem paidUntil_monotone_on_monotone_clock
    (X : Externals) (env : Bindings) (pre : list (Request * Z)) (req : Request)
    (now : Z) (db : Ledger) (t0 : Z) (uid : string) (before : User) :
  ledger_bounded t0 db ->
  clock_nondecreasing t0 (pre ++ [(req, now)]) ->
  run X env pre db !! uid = Some before ->
  exists after,
    run X env (pre ++ [(req, now)]) db !! uid = Some after
    /\ paidUntil_step req now before after
    /\ paidUntil_le (paidUntil before) (paidUntil after).
Proof.
  intros Hb Hc Hu.
  destruct (run_ledger_bounded X env pre [(req, now)] db t0 Hb Hc)
    as (t & Hbt & Hct).
  simpl in Hct. destruct Hct as [Ht _].
  destruct (ledger_step_forward _ _ _ _ uid before
              (step_paidUntil X env (run X env pre db) req now) Hu)
    as (u' & Hu' & Hs).
  exists u'. split.
  - unfold run. rewrite fold_left_app. exact Hu'.
  - split; [exact Hs|].
    exact (proj2 (paidUntil_step_bounded req now t before u'
                    (Hbt uid before Hu) Ht Hs)).
Qed.

Lemma paidUntil_monotone_on_monotone_clock_witness :
  exists after,
    run Demo.X Demo.env
        ([(GET_oauth_callback (Some "code") "u9", Demo.noon);
          (POST_webhook (Some "t=1,v1=good") "completed:u9", Demo.noon + 1000)]
         ++ [(POST_webhook (Some "t=1,v1=good") "completed:u9",
              Demo.noon + 3600000)])
        ∅ !! "u9" = Some after
    /\ paidUntil_step (POST_webhook (Some "t=1,v1=good") "completed:u9")
                      (Demo.noon + 3600000)
                      (mkUser "u9" "dana@example.com" Demo.noon 0 Demo.noon
                              (Some (Demo.noon + 1000 + Date.msPerDay)))
                      after
    /\ paidUntil_le
         (paidUntil (mkUser "u9" "dana@example.com" Demo.noon 0 Demo.noon
                            (Some (Demo.noon + 1000 + Date.msPerDay))))
         (paidUntil after).
Proof.
  apply (paidUntil_monotone_on_monotone_clock Demo.X Demo.env
           [(GET_oauth_callback (Some "code") "u9", Demo.noon);
            (POST_webhook (Some "t=1,v1=good") "completed:u9", Demo.noon + 1000)]
           (POST_webhook (Some "t=1,v1=good") "completed:u9")
           (Demo.noon + 3600000) ∅ Demo.noon "u9"
           (mkUser "u9" "dana@example.com" Demo.noon 0 Demo.noon
                   (Some (Demo.noon + 1000 + Date.msPerDay)))).
  - intros uid u Hu. rewrite lookup_empty in Hu. discriminate Hu.
  - simpl. unfold Demo.noon. lia.
  - vm_compute. reflexivity.
Defined.

(** C3 as stated fails: the webhook overwrites [paidUntil] without comparing
    it with the value in the row. Two completed-checkout events for bob, the
    second processed with a clock reading one hour before that of the first
    (a delivery handled by a worker whose clock is behind, or after the
    clock was set back): the first sets [paidUntil] to 2024-01-02T13:00:00Z,
    the second moves it back to 2024-01-02T12:00:00Z. *)
Lemma webhook_with_earlier_clock_moves_paidUntil_back :
  let hook := POST_webhook (Some "t=1,v1=good") "completed:u2" in
  let db1 := step Demo.X Demo.env Demo.db0 (hook, Demo.noon + 3600000) in
  let db2 := step Demo.X Demo.env db1 (hook, Demo.noon) in
  paidUntil <$> (db1 !! "u2") = Some (Some 1704200400000)
  /\ paidUntil <$> (db2 !! "u2") = Some (Some 1704196800000)
  /\ ~ paidUntil_le (Some 1704200400000) (Some 1704196800000).
Proof.
  repeat split; try (vm_compute; reflexivity).
  simpl. lia.
Qed.

(** ** Further properties of the routes *)

(** The application answers every request: no exception leaves it. *)
Lemma app_returns X env req now db :
  exists response, fst (fst (app X env req now db)) = Ok response.
Proof. destruct req; simpl; apply onError_returns. Qed.

(** X1. The request path never writes [paidUntil]: a request other than the
    webhook keeps every row and leaves its [paidUntil] as it is. *)
Theorem request_path_keeps_paidUntil
    (X : Externals) (env : Bindings) (db : Ledger) (req : Request) (now : Z)
    (uid : string) (u : User) :
  (forall sig rawBody, req <> POST_webhook sig rawBody) ->
  db !! uid = Some u ->
  exists u', step X env db (req, now) !! uid = Some u'
             /\ paidUntil u' = paidUntil u.
Proof.
  intros Hreq Hdb.
  destruct (ledger_step_forward _ _ _ _ uid u (step_paidUntil X env db req now) Hdb)
    as (u' & Hu' & [He|[(sig & rawBody & Hw) _]]).
  - exists u'. split; assumption.
  - exfalso. exact (Hreq sig rawBody Hw).
Qed.

Lemma request_path_keeps_paidUntil_witness :
  exists u', step Demo.X Demo.env Demo.db0
               (GET_protected (Some "jwt:u3"), Demo.noon) !! "u3" = Some u'
             /\ paidUntil u' = paidUntil Demo.carol.
Proof.
  apply (request_path_keeps_paidUntil Demo.X Demo.env Demo.db0
           (GET_protected (Some "jwt:u3")) Demo.noon "u3" Demo.carol);
    [intros sig rawBody H; discriminate H | reflexivity].
Defined.

(** X2. [/protected] for an authenticated identifier with no row answers 404
    and writes nothing. *)
Theorem protected_unknown_user
    (X : Externals) (env : Bindings) (uid : string) (now : Z) (db : Ledger) :
  db !! uid = None ->
  protected X env (JsString uid) now db
  = (Ok (Json 404 UserNotFound), db, [FindUniqueById (JsString uid)]).
Proof.
  intros Hdb. unfold protected, bind, prisma.findUnique_id. rewrite Hdb.
  reflexivity.
Qed.

Lemma protected_unknown_user_witness :
  protected Demo.X Demo.env (JsString "ghost") Demo.noon Demo.db0
  = (Ok (Json 404 UserNotFound), Demo.db0, [FindUniqueById (JsString "ghost")]).
Proof.
  apply (protected_unknown_user Demo.X Demo.env "ghost" Demo.noon Demo.db0).
  reflexivity.
Defined.

(** X3. Without a session cookie the middleware answers 401 with a sign-in
    URL that is not empty, and does not run the rest of the chain. *)
Theorem middleware_missing_cookie
    (X : Externals) (env : Bindings) (cookie : option string) (now : Z)
    (next : JsValue -> M Response) (db : Ledger) :
  getSignedCookie X cookie (JWT_SECRET env) "token" = CookieUndefined ->
  middleware X env cookie now next db
  = (Ok (Json 401 (UserNotAuthenticated (googleAuthURL env))), db, [])
  /\ googleAuthURL env <> "".
Proof.
  intros Hc. unfold middleware. rewrite Hc. split; [reflexivity|].
  unfold googleAuthURL. simpl. discriminate.
Qed.

Lemma middleware_missing_cookie_witness :
  middleware Demo.X Demo.env None Demo.noon
    (fun uid => protected Demo.X Demo.env uid Demo.noon) Demo.db0
  = (Ok (Json 401 (UserNotAuthenticated (googleAuthURL Demo.env))), Demo.db0, [])
  /\ googleAuthURL Demo.env <> "".
Proof.
  apply (middleware_missing_cookie Demo.X Demo.env None Demo.noon
           (fun uid => protected Demo.X Demo.env uid Demo.noon) Demo.db0).
  reflexivity.
Defined.

(** X4. A verified event of any type other than a completed checkout is
    acknowledged and the ledger is neither read nor written. *)
Theorem webhook_other_event_acknowledged
    (X : Externals) (env : Bindings) (sig : option string) (rawBody : string)
    (now : Z) (db : Ledger) (event : StripeEvent) :
  constructEventAsync X rawBody sig (STRIPE_WEBHOOK_SECRET env) now = Ok event ->
  type event <> "checkout.session.completed" ->
  app X env (POST_webhook sig rawBody) now db = (Ok (Json 200 Received), db, []).
Proof.
  intros Hev Hty. simpl. apply onError_Ok. unfold webhook. rewrite Hev.
  destruct (String.eqb_spec (type event) "checkout.session.completed");
    [contradiction | reflexivity].
Qed.

Lemma webhook_other_event_acknowledged_witness :
  app Demo.X Demo.env (POST_webhook (Some "t=1,v1=good") "created") Demo.noon
      Demo.db0
  = (Ok (Json 200 Received), Demo.db0, []).
Proof.
  apply (webhook_other_event_acknowledged Demo.X Demo.env (Some "t=1,v1=good")
           "created" Demo.noon Demo.db0
           (mkEvent "payment_intent.created" (mkSession None)));
    [reflexivity | discriminate].
Defined.

(** X5. The expiry the webhook computes, [setDate(getDate() + 1)] on the
    current time, is the current time plus 86400000 ms at any fixed offset of
    local time from UTC, or an Invalid Date when that is out of range. *)
Theorem endOfDay_is_now_plus_one_day (tza now : Z) :
  Date.setDate tza now (Date.getDate tza now + 1)
  = if Z.abs (now + 86400000) <=? 8640000000000000
    then Some (now + 86400000) else None.
Proof. rewrite setDate_next_day. reflexivity. Qed.

(** X6. When the token exchange with the identity provider fails, the OAuth
    callback answers 500 with the error's message and touches no row. *)
Theorem oauth_callback_upstream_failure
    (X : Externals) (env : Bindings) (code : option string) (newId : string)
    (now : Z) (db : Ledger) (e : Exn) :
  axios_post_token X code env = Throw e ->
  app X env (GET_oauth_callback code newId) now db
  = (Ok (Json 500 (OAuthCallbackFailed (message e))), db, []).
Proof.
  intros He. simpl. apply onError_Ok. unfold oauth_callback, try_catch.
  rewrite He. reflexivity.
Qed.

Lemma oauth_callback_upstream_failure_witness :
  app Demo.X Demo.env (GET_oauth_callback None "u9") Demo.noon Demo.db0
  = (Ok (Json 500 (OAuthCallbackFailed
                     (message (AxiosError "Request failed with status code 400")))),
     Demo.db0, []).
Proof.
  apply (oauth_callback_upstream_failure Demo.X Demo.env None "u9" Demo.noon
           Demo.db0 (AxiosError "Request failed with status code 400")).
  reflexivity.
Defined.

(** ** Scenarios *)

(** A new user: four requests are allowed, the fifth requires payment. *)
Example scenario_free_quota :
  responses Demo.X Demo.env
    [(GET_protected (Some "jwt:u1"), Demo.noon);
     (GET_protected (Some "jwt:u1"), Demo.noon + 1);
     (GET_protected (Some "jwt:u1"), Demo.noon + 2);
     (GET_protected (Some "jwt:u1"), Demo.noon + 3);
     (GET_protected (Some "jwt:u1"), Demo.noon + 4)]
    Demo.db0
  = [Json 200 YouAreAuthenticated; Json 200 YouAreAuthenticated;
     Json 200 YouAreAuthenticated; Json 200 YouAreAuthenticated;
     Json 200 (PaymentRequired (JsString "https://checkout.stripe.com/c/pay"))].
Proof. vm_compute. reflexivity. Qed.

(** A user over the quota pays: the request after the webhook is allowed,
    the one a day and a second later is not. *)
Example scenario_payment_window :
  responses Demo.X Demo.env
    [(GET_protected (Some "jwt:u2"), Demo.noon);
     (POST_webhook (Some "t=1,v1=good") "completed:u2", Demo.noon + 1000);
     (GET_protected (Some "jwt:u2"), Demo.noon + 2000);
     (GET_protected (Some "jwt:u2"), Demo.noon + Date.msPerDay + 1000)]
    Demo.db0
  = [Json 200 (PaymentRequired (JsString "https://checkout.stripe.com/c/pay"));
     Json 200 Received;
     Json 200 YouAreAuthenticated;
     Json 200 (PaymentRequired (JsString "https://checkout.stripe.com/c/pay"))].
Proof. vm_compute. reflexivity. Qed.

(** A first sign-in creates the row and sets the session cookie; the token
    of the cookie then passes the middleware. *)
Example scenario_sign_in :
  responses Demo.X Demo.env
    [(GET_oauth_callback (Some "code") "u9", Demo.noon);
     (GET_protected (Some "jwt:u9"), Demo.noon + 1);
     (GET_protected None, Demo.noon + 2);
     (GET_protected (Some "forged"), Demo.noon + 3)]
    Demo.db0
  = [Redirect "https://chatgpt.com/g/g-dDhU9UEws-cryptobot" "token=jwt:u9";
     Json 200 YouAreAuthenticated;
     Json 401 (UserNotAuthenticated (googleAuthURL Demo.env));
     Json 401 (InvalidToken (googleAuthURL Demo.env))].
Proof. vm_compute. reflexivity. Qed.

(** ** What each handler does to the ledger *)

Lemma onError_ledger m db : snd (fst (onError m db)) = snd (fst (m db)).
Proof.
  unfold onError, try_catch, ret. destruct (m db) as [[[r|e] d] c]; reflexivity.
Qed.

Lemma find_email_None db mail :
  list_find (fun kv : string * User => email (snd kv) = mail) (map_to_list db) = None ->
  email_free mail db.
Proof.
  intros H k u Hk He. apply list_find_None in H.
  rewrite Forall_forall in H.
  apply (H (k, u)); [|exact He].
  apply elem_of_map_to_list. exact Hk.
Qed.

Lemma find_email_Some db mail i k u :
  list_find (fun kv : string * User => email (snd kv) = mail) (map_to_list db)
  = Some (i, (k, u)) ->
  db !! k = Some u /\ email u = mail.
Proof.
  intros H. apply list_find_Some in H. destruct H as (Hl & He & _).
  split; [|exact He].
  apply elem_of_map_to_list. eapply list_elem_of_lookup_2. exact Hl.
Qed.

Lemma find_email_present db mail k u :
  db !! k = Some u -> email u = mail ->
  exists i k' u',
    list_find (fun kv : string * User => email (snd kv) = mail) (map_to_list db)
    = Some (i, (k', u')).
Proof.
  intros Hk He.
  destruct (list_find_elem_of (fun kv : string * User => email (snd kv) = mail)
              (map_to_list db) (k, u)) as [[i [k' u']] Hf].
  - apply elem_of_map_to_list. exact Hk.
  - exact He.
  - eauto.
Qed.

(** The OAuth callback leaves the ledger as it is, or adds one row under a
    fresh key with an email no row had. *)
Lemma oauth_callback_cases X env code now newId db :
  snd (fst (oauth_callback X env code now newId db)) = db
  \/ exists mail,
       db !! newId = None /\ email_free mail db
       /\ snd (fst (oauth_callback X env code now newId db))
          = <[newId := mkUser newId mail now 0 now None]> db.
Proof.
  unfold oauth_callback, try_catch, bind, lift, ret.
  destruct (axios_post_token X code env) as [tok|e]; simpl; [|left; reflexivity].
  destruct (axios_get_userinfo X tok) as [mail|e]; simpl; [|left; reflexivity].
  unfold prisma.findUnique_email.
  destruct mail as [| |m| | |]; simpl; try (left; reflexivity).
  destruct (list_find _ (map_to_list db)) as [[i [k u]]|] eqn:Hf; simpl;
    [left; reflexivity|].
  unfold prisma.create. rewrite Hf.
  destruct (db !! newId) eqn:Hid; simpl; [left; reflexivity|].
  right. exists m. split; [reflexivity|]. split; [|reflexivity].
  apply find_email_None. exact Hf.
Qed.

(** The webhook leaves the ledger as it is, or sets the expiry of one
    existing row to its clock reading plus one day. *)
Lemma webhook_cases X env sig rawBody now db :
  snd (fst (webhook X env sig rawBody now db)) = db
  \/ exists uid u,
       db !! uid = Some u
       /\ snd (fst (webhook X env sig rawBody now db))
          = <[uid := prisma.extendPaidUntil u (now + Date.msPerDay)]> db.
Proof.
  unfold webhook.
  destruct (constructEventAsync _ _ _ _ _) as [event|e]; [|left; reflexivity].
  destruct (String.eqb _ _); [|left; reflexivity].
  rewrite setDate_next_day. unfold bind, prisma.update_paidUntil, ret.
  destruct (client_reference_id (data_object event)) as [uid|]; simpl;
    [|left; reflexivity].
  destruct (Date.TimeClip (now + Date.msPerDay)) as [t|] eqn:Ht; simpl;
    [|left; reflexivity].
  destruct (db !! uid) as [u|] eqn:Hdb; simpl; [|left; reflexivity].
  right. exists uid, u. split; [exact Hdb|].
  unfold Date.TimeClip in Ht. destruct (_ <=? _); [|discriminate].
  injection Ht as <-. reflexivity.
Qed.

(** [/protected] leaves the ledger as it is, or records an allowed request
    on the row of the user in the context, which the decision allowed. *)
Lemma protected_cases X env v now db :
  snd (fst (protected X env v now db)) = db
  \/ exists uid u,
       v = JsString uid /\ db !! uid = Some u /\ decide u now = ALLOW
       /\ requestCount u + 1 <= int4_max
       /\ snd (fst (protected X env v now db))
          = <[uid := prisma.recordAllowedRequest u now]> db.
Proof.
  unfold protected, bind, prisma.findUnique_id.
  destruct v as [| |uid| | |]; simpl; try (left; reflexivity).
  destruct (db !! uid) as [u|] eqn:Hdb; simpl; [|left; reflexivity].
  destruct (decide u now) eqn:Hdec.
  - unfold prisma.update_request. rewrite Hdb.
    destruct (Z.leb_spec (requestCount u + 1) int4_max); simpl;
      [|left; reflexivity].
    right. exists uid, u. auto.
  - unfold lift, ret.
    destruct (checkout_sessions_create X env (JsString uid)); left; reflexivity.
Qed.

(** The middleware writes nothing itself: the ledger after it is the one
    before it or the one the rest of the chain leaves. *)
Lemma middleware_cases X env cookie now next db :
  snd (fst (middleware X env cookie now next db)) = db
  \/ exists v, snd (fst (middleware X env cookie now next db))
               = snd (fst (next v db)).
Proof.
  unfold middleware.
  destruct (getSignedCookie _ _ _ _) as [| |token]; try (left; reflexivity).
  destruct (String.eqb token ""); [left; reflexivity|].
  unfold try_catch, bind, lift, ret.
  destruct (verify X token (JWT_SECRET env) now) as [payload|e]; simpl;
    [|left; reflexivity].
  right. exists (userId payload).
  destruct (next (userId payload) db) as [[[r|e] d] c]; reflexivity.
Qed.

(** One request: the ledger is unchanged, or one existing row is rewritten
    keeping what identifies it, or one row is added under a fresh key with
    an email no row had. *)
Lemma step_cases X env db req now :
  step X env db (req, now) = db
  \/ (exists uid u u',
        db !! uid = Some u /\ same_identity u u'
        /\ step X env db (req, now) = <[uid := u']> db)
  \/ (exists newId mail,
        db !! newId = None /\ email_free mail db
        /\ step X env db (req, now)
           = <[newId := mkUser newId mail now 0 now None]> db).
Proof.
  unfold step. destruct req as [code newId|sig rawBody|cookie|cookie]; simpl;
    rewrite onError_ledger.
  - destruct (oauth_callback_cases X env code now newId db) as [H|(mail & H)].
    + left. exact H.
    + right. right. exists newId, mail. exact H.
  - destruct (webhook_cases X env sig rawBody now db) as [H|(uid & u & Hu & H)].
    + left. exact H.
    + right. left. exists uid, u, (prisma.extendPaidUntil u (now + Date.msPerDay)).
      repeat split; assumption.
  - destruct (middleware_cases X env cookie now
                (fun uid => onError (protected X env uid now)) db) as [H|[v H]].
    + left. exact H.
    + rewrite H, onError_ledger.
      destruct (protected_cases X env v now db)
        as [Hp|(uid & u & _ & Hu & _ & _ & Hp)].
      * left. exact Hp.
      * right. left. exists uid, u, (prisma.recordAllowedRequest u now).
        repeat split; assumption.
  - destruct (middleware_cases X env cookie now (fun _ => ret NotFound) db)
      as [H|[v H]]; left; exact H.
Qed.

(** X7. A request changes at most one row of the ledger: there is a key
    outside of which the ledger after the request is the ledger before it. *)
Theorem step_changes_at_most_one_row
    (X : Externals) (env : Bindings) (db : Ledger) (req : Request) (now : Z) :
  exists k, forall k', k' <> k -> step X env db (req, now) !! k' = db !! k'.
Proof.
  destruct (step_cases X env db req now)
    as [H|[(uid & u & u' & _ & _ & H)|(newId & mail & _ & _ & H)]]; rewrite H.
  - exists "". reflexivity.
  - exists uid. intros k' Hne. apply lookup_insert_ne. congruence.
  - exists newId. intros k' Hne. apply lookup_insert_ne. congruence.
Qed.

Lemma same_identity_refl u : same_identity u u.
Proof. repeat split. Qed.

Lemma same_identity_trans a b c :
  same_identity a b -> same_identity b c -> same_identity a c.
Proof. unfold same_identity. intros (?&?&?) (?&?&?). repeat split; congruence. Qed.

Lemma step_identity X env db req now k u :
  db !! k = Some u ->
  exists u', step X env db (req, now) !! k = Some u' /\ same_identity u u'.
Proof.
  intros Hk.
  destruct (step_cases X env db req now)
    as [H|[(uid & r & r' & Hr & Hs & H)|(newId & mail & Hn & _ & H)]]; rewrite H.
  - exists u. split; [exact Hk | apply same_identity_refl].
  - destruct (string_dec uid k) as [->|Hne].
    + rewrite lookup_insert_eq. exists r'. split; [reflexivity|]. congruence.
    + rewrite lookup_insert_ne by exact Hne.
      exists u. split; [exact Hk | apply same_identity_refl].
  - destruct (string_dec newId k) as [->|Hne]; [congruence|].
    rewrite lookup_insert_ne by exact Hne.
    exists u. split; [exact Hk | apply same_identity_refl].
Qed.

(** X8. No request removes a row or changes what identifies it: after any
    run, a row of the ledger is still there with the same [id], [email] and
    [createdAt]. *)
Theorem identity_immutable_over_runs
    (X : Externals) (env : Bindings) (trace : list (Request * Z)) (db : Ledger)
    (k : string) (u : User) :
  db !! k = Some u ->
  exists u', run X env trace db !! k = Some u' /\ same_identity u u'.
Proof.
  revert db u. induction trace as [|[req now] trace IH]; intros db u Hk.
  - exists u. split; [exact Hk | apply same_identity_refl].
  - rewrite run_cons.
    destruct (step_identity X env db req now k u Hk) as (u1 & H1 & S1).
    destruct (IH _ u1 H1) as (u2 & H2 & S2).
    exists u2. split; [exact H2 | eapply same_identity_trans; eassumption].
Qed.

Lemma identity_immutable_over_runs_witness :
  exists u',
    run Demo.X Demo.env
        [(GET_protected (Some "jwt:u2"), Demo.noon);
         (POST_webhook (Some "t=1,v1=good") "completed:u2", Demo.noon + 1);
         (GET_protected (Some "jwt:u2"), Demo.noon + 2)]
        Demo.db0 !! "u2" = Some u'
    /\ same_identity Demo.bob u'.
Proof.
  apply (identity_immutable_over_runs Demo.X Demo.env
           [(GET_protected (Some "jwt:u2"), Demo.noon);
            (POST_webhook (Some "t=1,v1=good") "completed:u2", Demo.noon + 1);
            (GET_protected (Some "jwt:u2"), Demo.noon + 2)]
           Demo.db0 "u2" Demo.bob).
  reflexivity.
Defined.

Lemma step_ledger_keyed X env db req now :
  ledger_keyed db -> ledger_keyed (step X env db (req, now)).
Proof.
  intros Hkey.
  destruct (step_cases X env db req now)
    as [H|[(uid & r & r' & Hr & (Hid & _) & H)|(newId & mail & Hn & _ & H)]];
    rewrite H; [exact Hkey| |]; intros k u Hk.
  - destruct (string_dec uid k) as [->|Hne].
    + rewrite lookup_insert_eq in Hk. injection Hk as <-.
      rewrite Hid. exact (Hkey _ _ Hr).
    + rewrite lookup_insert_ne in Hk by exact Hne. exact (Hkey _ _ Hk).
  - destruct (string_dec newId k) as [->|Hne].
    + rewrite lookup_insert_eq in Hk. injection Hk as <-. reflexivity.
    + rewrite lookup_insert_ne in Hk by exact Hne. exact (Hkey _ _ Hk).
Qed.

Lemma step_emails_unique X env db req now :
  emails_unique db -> emails_unique (step X env db (req, now)).
Proof.
  intros Huniq.
  destruct (step_cases X env db req now)
    as [H|[(uid & r & r' & Hr & (_ & Hmail & _) & H)|(newId & mail & Hn & Hfree & H)]];
    rewrite H; [exact Huniq| |].
  - assert (Hold : forall k u, <[uid := r']> db !! k = Some u ->
                     exists u0, db !! k = Some u0 /\ email u0 = email u).
    { intros k u Hk. destruct (string_dec uid k) as [->|Hne].
      - rewrite lookup_insert_eq in Hk. injection Hk as <-. eauto.
      - rewrite lookup_insert_ne in Hk by exact Hne. eauto. }
    intros k1 k2 u1 u2 H1 H2 He.
    destruct (Hold _ _ H1) as (a & Ha & Ea).
    destruct (Hold _ _ H2) as (b & Hb & Eb).
    apply (Huniq k1 k2 a b Ha Hb). congruence.
  - intros k1 k2 u1 u2 H1 H2 He.
    destruct (string_dec newId k1) as [E1|N1], (string_dec newId k2) as [E2|N2].
    + congruence.
    + subst k1. rewrite lookup_insert_eq in H1. injection H1 as <-.
      rewrite lookup_insert_ne in H2 by exact N2.
      exfalso. apply (Hfree _ _ H2). simpl in He. congruence.
    + subst k2. rewrite lookup_insert_eq in H2. injection H2 as <-.
      rewrite lookup_insert_ne in H1 by exact N1.
      exfalso. apply (Hfree _ _ H1). simpl in He. congruence.
    + rewrite lookup_insert_ne in H1 by exact N1.
      rewrite lookup_insert_ne in H2 by exact N2.
      exact (Huniq _ _ _ _ H1 H2 He).
Qed.

(** X9. The ledger stays well formed: if every row is stored under its own
    [id] and no two rows share an [email], this is still so after any run of
    requests; in particular repeated or interleaved OAuth callbacks never
    leave two rows with one email. *)
Theorem ledger_well_formed_over_runs
    (X : Externals) (env : Bindings) (trace : list (Request * Z)) (db : Ledger) :
  ledger_keyed db -> emails_unique db ->
  ledger_keyed (run X env trace db) /\ emails_unique (run X env trace db).
Proof.
  revert db. induction trace as [|[req now] trace IH]; intros db Hk Hu.
  - split; assumption.
  - rewrite run_cons. apply IH.
    + apply step_ledger_keyed. exact Hk.
    + apply step_emails_unique. exact Hu.
Qed.

Lemma ledger_well_formed_over_runs_witness :
  ledger_keyed
    (run Demo.X Demo.env
       [(GET_oauth_callback (Some "code") "u9", Demo.noon);
        (GET_oauth_callback (Some "code") "u10", Demo.noon + 1);
        (GET_protected (Some "jwt:u9"), Demo.noon + 2)] ∅)
  /\ emails_unique
       (run Demo.X Demo.env
          [(GET_oauth_callback (Some "code") "u9", Demo.noon);
           (GET_oauth_callback (Some "code") "u10", Demo.noon + 1);
           (GET_protected (Some "jwt:u9"), Demo.noon + 2)] ∅).
Proof.
  apply (ledger_well_formed_over_runs Demo.X Demo.env
           [(GET_oauth_callback (Some "code") "u9", Demo.noon);
            (GET_oauth_callback (Some "code") "u10", Demo.noon + 1);
            (GET_protected (Some "jwt:u9"), Demo.noon + 2)] ∅).
  - intros k u Hk. rewrite lookup_empty in Hk. discriminate Hk.
  - intros k1 k2 u1 u2 H1. rewrite lookup_empty in H1. discriminate H1.
Defined.



(** ** Invariants of the rows *)

Lemma all_rows_insert P (db : Ledger) k u :
  all_rows P db -> P u -> all_rows P (<[k := u]> db).
Proof.
  intros Hall Hu k' u' Hk'. destruct (string_dec k k') as [->|Hne].
  - rewrite lookup_insert_eq in Hk'. injection Hk' as <-. exact Hu.
  - rewrite lookup_insert_ne in Hk' by exact Hne. exact (Hall _ _ Hk').
Qed.

(** A property of rows that holds of a new row, that an allowed request
    keeps on the row the decision allowed, and that a recorded payment keeps,
    holds of every row after a request if it did before. *)
Lemma step_all_rows (P : User -> Prop) X env db req now :
  (forall newId mail, P (mkUser newId mail now 0 now None)) ->
  (forall u, P u -> decide u now = ALLOW -> requestCount u + 1 <= int4_max ->
             P (prisma.recordAllowedRequest u now)) ->
  (forall u, P u -> P (prisma.extendPaidUntil u (now + Date.msPerDay))) ->
  all_rows P db -> all_rows P (step X env db (req, now)).
Proof.
  intros Hnew Hreq Hpay Hall. unfold step.
  destruct req as [code newId|sig rawBody|cookie|cookie]; simpl;
    rewrite onError_ledger.
  - destruct (oauth_callback_cases X env code now newId db)
      as [H|(mail & _ & _ & H)]; rewrite H; [exact Hall|].
    apply all_rows_insert; [exact Hall | apply Hnew].
  - destruct (webhook_cases X env sig rawBody now db) as [H|(uid & u & Hu & H)];
      rewrite H; [exact Hall|].
    apply all_rows_insert; [exact Hall | apply Hpay, (Hall _ _ Hu)].
  - destruct (middleware_cases X env cookie now
                (fun uid => onError (protected X env uid now)) db) as [H|[v H]];
      rewrite H; [exact Hall|].
    rewrite onError_ledger.
    destruct (protected_cases X env v now db)
      as [Hp|(uid & u & _ & Hu & Hdec & Hmax & Hp)]; rewrite Hp; [exact Hall|].
    apply all_rows_insert; [exact Hall | apply Hreq; auto; exact (Hall _ _ Hu)].
  - destruct (middleware_cases X env cookie now (fun _ => ret NotFound) db)
      as [H|[v H]]; rewrite H; exact Hall.
Qed.

Lemma run_all_rows (P : User -> Prop) X env trace db :
  (forall newId mail now, P (mkUser newId mail now 0 now None)) ->
  (forall u now, P u -> decide u now = ALLOW -> requestCount u + 1 <= int4_max ->
                 P (prisma.recordAllowedRequest u now)) ->
  (forall u now, P u -> P (prisma.extendPaidUntil u (now + Date.msPerDay))) ->
  all_rows P db -> all_rows P (run X env trace db).
Proof.
  intros Hnew Hreq Hpay. revert db.
  induction trace as [|[req now] trace IH]; intros db Hall; [exact Hall|].
  rewrite run_cons. apply IH. apply step_all_rows; auto.
Qed.



(** X12. [requestCount] stays a non-negative value of its INTEGER column:
    if every counter is between 0 and 2^31-1, this is still so after any run
    of requests. *)
Theorem requestCount_stays_in_range
    (X : Externals) (env : Bindings) (trace : list (Request * Z)) (db : Ledger) :
  all_rows requestCount_in_range db ->
  all_rows requestCount_in_range (run X env trace db).
Proof.
  apply run_all_rows; unfold requestCount_in_range, int4_max; simpl.
  - intros; lia.
  - intros u now H _ Hmax. unfold int4_max in Hmax. lia.
  - intros u now H. exact H.
Qed.

Lemma requestCount_stays_in_range_witness :
  all_rows requestCount_in_range
    (run Demo.X Demo.env
       [(GET_oauth_callback (Some "code") "u9", Demo.noon);
        (GET_protected (Some "jwt:u9"), Demo.noon + 1)] ∅).
Proof.
  apply (requestCount_stays_in_range Demo.X Demo.env
           [(GET_oauth_callback (Some "code") "u9", Demo.noon);
            (GET_protected (Some "jwt:u9"), Demo.noon + 1)] ∅).
  intros k u Hk. rewrite lookup_empty in Hk. discriminate Hk.
Defined.

(** ** The OAuth callback *)

Lemma oauth_callback_identified X env code now newId db tok mail :
  axios_post_token X code env = Ok tok ->
  axios_get_userinfo X tok = Ok (JsString mail) ->
  oauth_callback X env code now newId db
  = try_catch
      (bind (prisma.findUnique_email (JsString mail))
         (fun found =>
            bind (match found with
                  | Some u => ret u
                  | None => prisma.create mail now newId
                  end)
                 (fun user =>
                    ret (Redirect "https://chatgpt.com/g/g-dDhU9UEws-cryptobot"
                           (setSignedCookie X (sign X (id user) (JWT_SECRET env))
                              (JWT_SECRET env))))))
      (fun error => ret (Json 500 (OAuthCallbackFailed (message error)))) db.
Proof.
  intros Htok Hmail. unfold oauth_callback, try_catch.
  rewrite Htok, bind_lift_Ok, Hmail, bind_lift_Ok. reflexivity.
Qed.

(** X13. Sign-in of a known user: when the identity provider returns an
    email that a row of a well-formed ledger has, the callback creates
    nothing and changes nothing; it redirects with a session cookie whose
    token is signed for that row's [id]. *)
Theorem oauth_callback_existing_user
    (X : Externals) (env : Bindings) (code : option string) (now : Z)
    (newId : string) (db : Ledger) (tok : JsValue) (mail : string)
    (k : string) (u : User) :
  axios_post_token X code env = Ok tok ->
  axios_get_userinfo X tok = Ok (JsString mail) ->
  emails_unique db ->
  db !! k = Some u ->
  email u = mail ->
  app X env (GET_oauth_callback code newId) now db
  = (Ok (Redirect "https://chatgpt.com/g/g-dDhU9UEws-cryptobot"
           (setSignedCookie X (sign X (id u) (JWT_SECRET env)) (JWT_SECRET env))),
     db, [FindUniqueByEmail (JsString mail)]).
Proof.
  intros Htok Hmail Huniq Hk He. simpl. apply onError_Ok.
  rewrite (oauth_callback_identified _ _ _ _ _ _ _ _ Htok Hmail).
  destruct (find_email_present db mail k u Hk He) as (i & k' & u' & Hf).
  destruct (find_email_Some _ _ _ _ _ Hf) as [Hk' He'].
  assert (k' = k) as -> by (apply (Huniq k' k u' u Hk' Hk); congruence).
  assert (u' = u) as -> by congruence.
  unfold try_catch, bind, prisma.findUnique_email. rewrite Hf. reflexivity.
Qed.

Lemma oauth_callback_existing_user_witness :
  app Demo.X Demo.env (GET_oauth_callback (Some "code") "u10") (Demo.noon + 1)
      (<["u9" := mkUser "u9" "dana@example.com" Demo.noon 3 Demo.noon None]> ∅)
  = (Ok (Redirect "https://chatgpt.com/g/g-dDhU9UEws-cryptobot"
           (setSignedCookie Demo.X
              (sign Demo.X
                 (id (mkUser "u9" "dana@example.com" Demo.noon 3 Demo.noon None))
                 (JWT_SECRET Demo.env))
              (JWT_SECRET Demo.env))),
     <["u9" := mkUser "u9" "dana@example.com" Demo.noon 3 Demo.noon None]> ∅,
     [FindUniqueByEmail (JsString "dana@example.com")]).
Proof.
  apply (oauth_callback_existing_user Demo.X Demo.env (Some "code")
           (Demo.noon + 1) "u10"
           (<["u9" := mkUser "u9" "dana@example.com" Demo.noon 3 Demo.noon None]> ∅)
           (JsString "access-token") "dana@example.com" "u9"
           (mkUser "u9" "dana@example.com" Demo.noon 3 Demo.noon None)).
  - reflexivity.
  - reflexivity.
  - intros k1 k2 u1 u2 H1 H2 _.
    destruct (string_dec "u9" k1) as [<-|N1];
      [|rewrite lookup_insert_ne, lookup_empty in H1 by exact N1; discriminate H1].
    destruct (string_dec "u9" k2) as [<-|N2];
      [reflexivity
      |rewrite lookup_insert_ne, lookup_empty in H2 by exact N2; discriminate H2].
  - reflexivity.
  - reflexivity.
Defined.

Lemma oauth_callback_creates X env code now newId db tok mail :
  axios_post_token X code env = Ok tok ->
  axios_get_userinfo X tok = Ok (JsString mail) ->
  email_free mail db ->
  db !! newId = None ->
  app X env (GET_oauth_callback code newId) now db
  = (Ok (Redirect "https://chatgpt.com/g/g-dDhU9UEws-cryptobot"
           (setSignedCookie X (sign X newId (JWT_SECRET env)) (JWT_SECRET env))),
     <[newId := mkUser newId mail now 0 now None]> db,
     [FindUniqueByEmail (JsString mail); CreateUser mail]).
Proof.
  intros Htok Hmail Hfree Hid. simpl. apply onError_Ok.
  rewrite (oauth_callback_identified _ _ _ _ _ _ _ _ Htok Hmail).
  assert (Hf : list_find (fun kv : string * User => email (snd kv) = mail)
                 (map_to_list db) = None).
  { destruct (list_find _ _) as [[i [k u]]|] eqn:Hf; [|reflexivity].
    destruct (find_email_Some _ _ _ _ _ Hf) as [Hk He].
    exfalso. exact (Hfree _ _ Hk He). }
  unfold try_catch, bind, prisma.findUnique_email. rewrite Hf. simpl.
  unfold prisma.create. rewrite Hf, Hid. reflexivity.
Qed.

(** X14. First sign-in: when no row has the email the identity provider
    returns, the callback adds exactly one row, under the generated key,
    with that email, [requestCount] 0, no [paidUntil] and [createdAt] and
    [lastLogin] at the time of the call, and redirects with a session cookie
    whose token is signed for the new [id]. *)
Theorem oauth_callback_new_user
    (X : Externals) (env : Bindings) (code : option string) (now : Z)
    (newId : string) (db : Ledger) (tok : JsValue) (mail : string) :
  axios_post_token X code env = Ok tok ->
  axios_get_userinfo X tok = Ok (JsString mail) ->
  email_free mail db ->
  db !! newId = None ->
  app X env (GET_oauth_callback code newId) now db
  = (Ok (Redirect "https://chatgpt.com/g/g-dDhU9UEws-cryptobot"
           (setSignedCookie X (sign X newId (JWT_SECRET env)) (JWT_SECRET env))),
     <[newId := mkUser newId mail now 0 now None]> db,
     [FindUniqueByEmail (JsString mail); CreateUser mail])
  /\ (forall k, k <> newId ->
        <[newId := mkUser newId mail now 0 now None]> db !! k = db !! k).
Proof.
  intros Htok Hmail Hfree Hid. split.
  - apply oauth_callback_creates with (tok := tok); assumption.
  - intros k Hne. apply lookup_insert_ne. congruence.
Qed.

Lemma oauth_callback_new_user_witness :
  app Demo.X Demo.env (GET_oauth_callback (Some "code") "u9") Demo.noon ∅
  = (Ok (Redirect "https://chatgpt.com/g/g-dDhU9UEws-cryptobot"
           (setSignedCookie Demo.X (sign Demo.X "u9" (JWT_SECRET Demo.env))
              (JWT_SECRET Demo.env))),
     <["u9" := mkUser "u9" "dana@example.com" Demo.noon 0 Demo.noon None]> ∅,
     [FindUniqueByEmail (JsString "dana@example.com");
      CreateUser "dana@example.com"])
  /\ (forall k, k <> "u9" ->
        <["u9" := mkUser "u9" "dana@example.com" Demo.noon 0 Demo.noon None]>
          (∅ : Ledger) !! k
        = (∅ : Ledger) !! k).
Proof.
  apply (oauth_callback_new_user Demo.X Demo.env (Some "code") Demo.noon "u9" ∅
           (JsString "access-token") "dana@example.com").
  - reflexivity.
  - reflexivity.
  - intros k u Hk. rewrite lookup_empty in Hk. discriminate Hk.
  - reflexivity.
Defined.

Lemma step_app X env db req now resp db' calls :
  app X env req now db = (Ok resp, db', calls) ->
  step X env db (req, now) = db' /\ respond X env db (req, now) = resp.
Proof. intros H. unfold step, respond. simpl fst; simpl snd. rewrite H. auto. Qed.

(** X15. Sign-in, then the first request: when the JWT helper verifies the
    token it signed and the cookie helper reads back the cookie that was
    set, a new user's [/protected] request with the issued credential is
    answered 200 'You are authenticated' and the new row has [requestCount]
    1 and [lastLogin] at the time of the request. *)
Theorem sign_in_then_first_request
    (X : Externals) (env : Bindings) (code : option string) (now now' : Z)
    (newId : string) (db : Ledger) (tok : JsValue) (mail : string)
    (cookie : option string) :
  axios_post_token X code env = Ok tok ->
  axios_get_userinfo X tok = Ok (JsString mail) ->
  email_free mail db ->
  db !! newId = None ->
  getSignedCookie X cookie (JWT_SECRET env) "token"
  = CookieValue (sign X newId (JWT_SECRET env)) ->
  sign X newId (JWT_SECRET env) <> "" ->
  verify X (sign X newId (JWT_SECRET env)) (JWT_SECRET env) now'
  = Ok (mkPayload (JsString newId)) ->
  responses X env
    [(GET_oauth_callback code newId, now); (GET_protected cookie, now')] db
  = [Redirect "https://chatgpt.com/g/g-dDhU9UEws-cryptobot"
       (setSignedCookie X (sign X newId (JWT_SECRET env)) (JWT_SECRET env));
     Json 200 YouAreAuthenticated]
  /\ run X env
       [(GET_oauth_callback code newId, now); (GET_protected cookie, now')] db
     !! newId
     = Some (mkUser newId mail now 1 now' None).
Proof.
  intros Htok Hmail Hfree Hid Hcookie Hne Hverify.
  pose proof (oauth_callback_creates X env code now newId db tok mail
                Htok Hmail Hfree Hid) as Hcb.
  set (u0 := mkUser newId mail now 0 now None) in *.
  set (db1 := <[newId := u0]> db) in *.
  destruct (step_app _ _ _ _ _ _ _ _ Hcb) as [Hstep Hresp].
  assert (Hlook : db1 !! newId = Some u0) by apply lookup_insert_eq.
  assert (Hdec : decide u0 now' = ALLOW) by reflexivity.
  assert (Hmax : requestCount u0 < int4_max) by (simpl; unfold int4_max; lia).
  assert (Hreq : app X env (GET_protected cookie) now' db1
                 = (Ok (Json 200 YouAreAuthenticated),
                    <[newId := prisma.recordAllowedRequest u0 now']> db1,
                    [FindUniqueById (JsString newId);
                     UpdateRequestCount (JsString newId) now'])).
  { unfold app. apply onError_Ok.
    rewrite (middleware_verified X env cookie now'
               (fun uid => protected X env uid now') _ _ db1 Hcookie Hne Hverify).
    apply onError_Ok. simpl userId.
    apply protected_ALLOW; assumption. }
  destruct (step_app _ _ _ _ _ _ _ _ Hreq) as [Hstep' Hresp'].
  split.
  - cbn [responses]. rewrite Hresp, Hstep, Hresp'. reflexivity.
  - unfold run. cbn [fold_left]. rewrite Hstep, Hstep'.
    rewrite lookup_insert_eq. reflexivity.
Qed.

Lemma sign_in_then_first_request_witness :
  responses Demo.X Demo.env
    [(GET_oauth_callback (Some "code") "u9", Demo.noon);
     (GET_protected (Some "jwt:u9"), Demo.noon + 5)] ∅
  = [Redirect "https://chatgpt.com/g/g-dDhU9UEws-cryptobot"
       (setSignedCookie Demo.X (sign Demo.X "u9" (JWT_SECRET Demo.env))
          (JWT_SECRET Demo.env));
     Json 200 YouAreAuthenticated]
  /\ run Demo.X Demo.env
       [(GET_oauth_callback (Some "code") "u9", Demo.noon);
        (GET_protected (Some "jwt:u9"), Demo.noon + 5)] ∅
     !! "u9"
     = Some (mkUser "u9" "dana@example.com" Demo.noon 1 (Demo.noon + 5) None).
Proof.
  apply (sign_in_then_first_request Demo.X Demo.env (Some "code") Demo.noon
           (Demo.noon + 5) "u9" ∅ (JsString "access-token") "dana@example.com"
           (Some "jwt:u9")).
  - reflexivity.
  - reflexivity.
  - intros k u Hk. rewrite lookup_empty in Hk. discriminate Hk.
  - reflexivity.
  - reflexivity.
  - discriminate.
  - reflexivity.
Defined.

(** ** Payments and access *)

Lemma webhook_paid X env sig rawBody now db event uid user :
  constructEventAsync X rawBody sig (STRIPE_WEBHOOK_SECRET env) now = Ok event ->
  type event = "checkout.session.completed" ->
  client_reference_id (data_object event) = Some uid ->
  db !! uid = Some user ->
  Z.abs (now + Date.msPerDay) <= Date.maxTime ->
  step X env db (POST_webhook sig rawBody, now)
  = <[uid := prisma.extendPaidUntil user (now + Date.msPerDay)]> db.
Proof.
  intros Hev Hty Href Hdb Hrange.
  change (snd (fst (onError (webhook X env sig rawBody now) db))
          = <[uid := prisma.extendPaidUntil user (now + Date.msPerDay)]> db).
  rewrite onError_ledger, (webhook_completed _ _ _ _ _ _ _ _ Hev Hty Href).
  unfold Date.TimeClip.
  destruct (Z.leb_spec (Z.abs (now + Date.msPerDay)) Date.maxTime); [|lia].
  unfold bind, prisma.update_paidUntil. rewrite Hdb. reflexivity.
Qed.

(** X16. Payments do not add up: when two verified completed-checkout
    events for the same user are processed one after the other, the ledger
    is the one that processing the second alone would give; the expiry is
    one day after the second, whatever the first had set. *)
Theorem payments_do_not_accumulate
    (X : Externals) (env : Bindings) (sig1 sig2 : option string)
    (rawBody1 rawBody2 : string) (now1 now2 : Z) (db : Ledger)
    (event1 event2 : StripeEvent) (uid : string) (user : User) :
  constructEventAsync X rawBody1 sig1 (STRIPE_WEBHOOK_SECRET env) now1 = Ok event1 ->
  constructEventAsync X rawBody2 sig2 (STRIPE_WEBHOOK_SECRET env) now2 = Ok event2 ->
  type event1 = "checkout.session.completed" ->
  type event2 = "checkout.session.completed" ->
  client_reference_id (data_object event1) = Some uid ->
  client_reference_id (data_object event2) = Some uid ->
  db !! uid = Some user ->
  Z.abs (now1 + Date.msPerDay) <= Date.maxTime ->
  Z.abs (now2 + Date.msPerDay) <= Date.maxTime ->
  run X env [(POST_webhook sig1 rawBody1, now1); (POST_webhook sig2 rawBody2, now2)] db
  = run X env [(POST_webhook sig2 rawBody2, now2)] db
  /\ run X env [(POST_webhook sig1 rawBody1, now1); (POST_webhook sig2 rawBody2, now2)] db
     !! uid
     = Some (prisma.extendPaidUntil user (now2 + Date.msPerDay)).
Proof.
  intros He1 He2 Ht1 Ht2 Hr1 Hr2 Hdb Hn1 Hn2.
  unfold run. cbn [fold_left].
  rewrite (webhook_paid _ _ _ _ _ _ _ _ _ He1 Ht1 Hr1 Hdb Hn1).
  rewrite (webhook_paid X env sig2 rawBody2 now2 _ event2 uid
             (prisma.extendPaidUntil user (now1 + Date.msPerDay)) He2 Ht2 Hr2
             (lookup_insert_eq _ _ _) Hn2).
  rewrite (webhook_paid _ _ _ _ _ _ _ _ _ He2 Ht2 Hr2 Hdb Hn2).
  rewrite insert_insert_eq. split; [reflexivity|].
  apply lookup_insert_eq.
Qed.

Lemma payments_do_not_accumulate_witness :
  run Demo.X Demo.env
    [(POST_webhook (Some "t=1,v1=good") "completed:u2", Demo.noon);
     (POST_webhook (Some "t=1,v1=good") "completed:u2", Demo.noon + 60000)]
    Demo.db0
  = run Demo.X Demo.env
      [(POST_webhook (Some "t=1,v1=good") "completed:u2", Demo.noon + 60000)]
      Demo.db0
  /\ run Demo.X Demo.env
       [(POST_webhook (Some "t=1,v1=good") "completed:u2", Demo.noon);
        (POST_webhook (Some "t=1,v1=good") "completed:u2", Demo.noon + 60000)]
       Demo.db0
     !! "u2"
     = Some (prisma.extendPaidUntil Demo.bob (Demo.noon + 60000 + Date.msPerDay)).
Proof.
  apply (payments_do_not_accumulate Demo.X Demo.env
           (Some "t=1,v1=good") (Some "t=1,v1=good")
           "completed:u2" "completed:u2" Demo.noon (Demo.noon + 60000) Demo.db0
           (mkEvent "checkout.session.completed" (mkSession (Some "u2")))
           (mkEvent "checkout.session.completed" (mkSession (Some "u2")))
           "u2" Demo.bob);
    try reflexivity; vm_compute; discriminate.
Defined.

(** X17. The payment window: after a verified completed-checkout event for
    a user is processed at [now], the decision for that user at a time [t] is
    ALLOW exactly when [requestCount < 4] or [t] is earlier than [now] plus
    one day; a [/protected] request of that user inside the window is
    answered 200 'You are authenticated' whatever the counter is (below the
    ceiling of its column). *)
Theorem payment_opens_one_day_window
    (X : Externals) (env : Bindings) (sig : option string) (rawBody : string)
    (now : Z) (db : Ledger) (event : StripeEvent) (uid : string) (user : User) :
  constructEventAsync X rawBody sig (STRIPE_WEBHOOK_SECRET env) now = Ok event ->
  type event = "checkout.session.completed" ->
  client_reference_id (data_object event) = Some uid ->
  db !! uid = Some user ->
  Z.abs (now + Date.msPerDay) <= Date.maxTime ->
  exists paid,
    step X env db (POST_webhook sig rawBody, now) !! uid = Some paid
    /\ requestCount paid = requestCount user
    /\ forall t,
         (decide paid t = ALLOW <->
          requestCount user < 4 \/ t < now + Date.msPerDay)
         /\ (t < now + Date.msPerDay -> requestCount user < int4_max ->
             fst (fst (protected X env (JsString uid) t
                         (step X env db (POST_webhook sig rawBody, now))))
             = Ok (Json 200 YouAreAuthenticated)).
Proof.
  intros Hev Hty Href Hdb Hrange.
  rewrite (webhook_paid _ _ _ _ _ _ _ _ _ Hev Hty Href Hdb Hrange).
  exists (prisma.extendPaidUntil user (now + Date.msPerDay)).
  split; [apply lookup_insert_eq|]. split; [reflexivity|].
  intros t.
  assert (Hiff : decide (prisma.extendPaidUntil user (now + Date.msPerDay)) t = ALLOW
                 <-> requestCount user < 4 \/ t < now + Date.msPerDay).
  { rewrite decide_ALLOW. simpl. split.
    - intros [H|(until & Hu & Hgt)]; [left; exact H|].
      injection Hu as <-. right. lia.
    - intros [H|H]; [left; exact H|].
      right. exists (now + Date.msPerDay). split; [reflexivity | lia]. }
  split; [exact Hiff|].
  intros Ht Hmax.
  rewrite (protected_ALLOW X env uid
             (prisma.extendPaidUntil user (now + Date.msPerDay)) t _
             (lookup_insert_eq _ _ _)); [reflexivity| |exact Hmax].
  apply Hiff. right. exact Ht.
Qed.

Lemma payment_opens_one_day_window_witness :
  exists paid,
    step Demo.X Demo.env Demo.db0
      (POST_webhook (Some "t=1,v1=good") "completed:u2", Demo.noon) !! "u2"
    = Some paid
    /\ requestCount paid = requestCount Demo.bob
    /\ forall t,
         (decide paid t = ALLOW <->
          requestCount Demo.bob < 4 \/ t < Demo.noon + Date.msPerDay)
         /\ (t < Demo.noon + Date.msPerDay -> requestCount Demo.bob < int4_max ->
             fst (fst (protected Demo.X Demo.env (JsString "u2") t
                         (step Demo.X Demo.env Demo.db0
                            (POST_webhook (Some "t=1,v1=good") "completed:u2",
                             Demo.noon))))
             = Ok (Json 200 YouAreAuthenticated)).
Proof.
  apply (payment_opens_one_day_window Demo.X Demo.env (Some "t=1,v1=good")
           "completed:u2" Demo.noon Demo.db0
           (mkEvent "checkout.session.completed" (mkSession (Some "u2")))
           "u2" Demo.bob);
    try reflexivity; vm_compute; discriminate.
Defined.

(** ** Failures on the way *)

(** X18. When payment is required and creating the Stripe checkout session
    throws, nothing catches it: the authenticated user gets the framework's
    500 instead of a payment URL, and the ledger is unchanged. *)
Theorem protected_checkout_failure
    (X : Externals) (env : Bindings) (cookie : option string) (now : Z)
    (db : Ledger) (token : string) (uid : string) (user : User) (e : Exn) :
  getSignedCookie X cookie (JWT_SECRET env) "token" = CookieValue token ->
  token <> "" ->
  verify X token (JWT_SECRET env) now = Ok (mkPayload (JsString uid)) ->
  db !! uid = Some user ->
  decide user now = REQUIRE_PAYMENT ->
  checkout_sessions_create X env (JsString uid) = Throw e ->
  app X env (GET_protected cookie) now db
  = (Ok InternalServerError, db, [FindUniqueById (JsString uid)]).
Proof.
  intros Hc Hne Hv Hdb Hdec Hstripe. unfold app. apply onError_Ok.
  rewrite (middleware_verified X env cookie now
             (fun uid => protected X env uid now) _ _ db Hc Hne Hv).
  apply onError_Throw with (e := e). simpl userId.
  rewrite (protected_REQUIRE_PAYMENT _ _ _ _ _ _ Hdb Hdec), Hstripe.
  reflexivity.
Qed.

(** X19. A verified completed-checkout event that carries no client
    reference is not acknowledged: the update is refused for its missing
    [id], the exception leaves the handler, the answer is the framework's
    500 and the ledger is unchanged. *)
Theorem webhook_without_client_reference
    (X : Externals) (env : Bindings) (sig : option string) (rawBody : string)
    (now : Z) (db : Ledger) (event : StripeEvent) :
  constructEventAsync X rawBody sig (STRIPE_WEBHOOK_SECRET env) now = Ok event ->
  type event = "checkout.session.completed" ->
  client_reference_id (data_object event) = None ->
  app X env (POST_webhook sig rawBody) now db
  = (Ok InternalServerError, db,
     [UpdatePaidUntil JsNull (Date.TimeClip (now + Date.msPerDay))]).
Proof.
  intros Hev Hty Href. simpl.
  apply onError_Throw with (e := PrismaValidationError).
  unfold webhook. rewrite Hev, Hty, Href, setDate_next_day. reflexivity.
Qed.

(** X20. A request to [/protected] without a credential that verifies (no
    cookie, a cookie with a wrong signature, an empty token, or a token that
    [verify] rejects) is answered 401, and the ledger is neither read nor
    written. *)
Theorem unauthenticated_request_touches_nothing
    (X : Externals) (env : Bindings) (cookie : option string) (now : Z)
    (db : Ledger) :
  (forall token payload,
     getSignedCookie X cookie (JWT_SECRET env) "token" = CookieValue token ->
     token <> "" ->
     verify X token (JWT_SECRET env) now <> Ok payload) ->
  exists body,
    app X env (GET_protected cookie) now db = (Ok (Json 401 body), db, []).
Proof.
  intros Hbad. unfold app, middleware.
  destruct (getSignedCookie X cookie (JWT_SECRET env) "token") as [| |token] eqn:Hc.
  - eexists. reflexivity.
  - eexists. reflexivity.
  - destruct (String.eqb_spec token "") as [->|Hne].
    + eexists. reflexivity.
    + destruct (verify X token (JWT_SECRET env) now) as [payload|e] eqn:Hv.
      * exfalso. exact (Hbad token payload eq_refl Hne Hv).
      * eexists. reflexivity.
Qed.

Lemma protected_checkout_failure_witness :
  app Outage.X Demo.env (GET_protected (Some "jwt:u2")) Demo.noon Demo.db0
  = (Ok InternalServerError, Demo.db0, [FindUniqueById (JsString "u2")]).
Proof.
  apply (protected_checkout_failure Outage.X Demo.env (Some "jwt:u2") Demo.noon
           Demo.db0 "jwt:u2" "u2" Demo.bob
           (StripeError "An error occurred with our connection to Stripe."));
    try reflexivity. discriminate.
Defined.

Lemma webhook_without_client_reference_witness :
  app Outage.X Demo.env (POST_webhook (Some "t=1,v1=good") "completed:u2")
      Demo.noon Demo.db0
  = (Ok InternalServerError, Demo.db0,
     [UpdatePaidUntil JsNull (Date.TimeClip (Demo.noon + Date.msPerDay))]).
Proof.
  apply (webhook_without_client_reference Outage.X Demo.env
           (Some "t=1,v1=good") "completed:u2" Demo.noon Demo.db0
           (mkEvent "checkout.session.completed" (mkSession None)));
    reflexivity.
Defined.

Lemma unauthenticated_request_touches_nothing_witness :
  exists body,
    app Outage.X Demo.env (GET_protected (Some "tampered")) Demo.noon Demo.db0
    = (Ok (Json 401 body), Demo.db0, []).
Proof.
  apply (unauthenticated_request_touches_nothing Outage.X Demo.env
           (Some "tampered") Demo.noon Demo.db0).
  intros token payload H. discriminate H.
Defined.

(** ** The free quota over consecutive requests *)

Lemma app_protected_authenticated X env cookie now db token v :
  getSignedCookie X cookie (JWT_SECRET env) "token" = CookieValue token ->
  token <> "" ->
  verify X token (JWT_SECRET env) now = Ok (mkPayload v) ->
  app X env (GET_protected cookie) now db = onError (protected X env v now) db.
Proof.
  intros Hc Hne Hv. unfold app.
  destruct (onError_returns (protected X env v now) db) as [resp Hresp].
  destruct (onError (protected X env v now) db) as [[r d] c] eqn:E.
  simpl in Hresp. subst r. apply onError_Ok.
  rewrite (middleware_verified X env cookie now
             (fun uid => protected X env uid now) _ _ db Hc Hne Hv).
  exact E.
Qed.

Lemma decide_unpaid user now :
  paidUntil user = None ->
  decide user now = if requestCount user <? FREE_QUOTA then ALLOW else REQUIRE_PAYMENT.
Proof. intros H. unfold decide. rewrite H, orb_false_r. reflexivity. Qed.

(** X21. The free quota, request by request: for a user who has no
    [paidUntil], consecutive authenticated [/protected] requests are answered
    200 'You are authenticated' as long as [requestCount] is below 4, that
    is for the first [4 - requestCount] of them, and every later one is
    answered with the payment URL; requests beyond the quota are not
    counted. *)
Theorem free_quota_then_payment
    (X : Externals) (env : Bindings) (cookie : option string) (token : string)
    (uid : string) (url : JsValue) (ts : list Z) (db : Ledger) (user : User) :
  getSignedCookie X cookie (JWT_SECRET env) "token" = CookieValue token ->
  token <> "" ->
  (forall t, verify X token (JWT_SECRET env) t = Ok (mkPayload (JsString uid))) ->
  checkout_sessions_create X env (JsString uid) = Ok url ->
  db !! uid = Some user ->
  paidUntil user = None ->
  responses X env (map (fun t => (GET_protected cookie, t)) ts) db
  = replicate (Nat.min (Z.to_nat (FREE_QUOTA - requestCount user)) (length ts))
              (Json 200 YouAreAuthenticated)
    ++ replicate (length ts - Z.to_nat (FREE_QUOTA - requestCount user))
                 (Json 200 (PaymentRequired url))
  /\ (requestCount <$> run X env (map (fun t => (GET_protected cookie, t)) ts) db !! uid)
     = Some (requestCount user
             + Z.of_nat (Nat.min (Z.to_nat (FREE_QUOTA - requestCount user))
                                 (length ts))).
Proof.
  intros Hc Hne Hv Hstripe. revert db user.
  induction ts as [|t ts IH]; intros db user Hdb Hpaid.
  - cbn [map responses length]. rewrite Nat.min_0_r. split; [reflexivity|].
    unfold run. cbn [fold_left]. rewrite Hdb. simpl. f_equal. lia.
  - cbn [map responses length]. rewrite run_cons.
    pose proof (app_protected_authenticated X env cookie t db token
                  (JsString uid) Hc Hne (Hv t)) as Happ.
    pose proof (decide_unpaid user t Hpaid) as Hdec.
    unfold FREE_QUOTA in *.
    destruct (Z.ltb_spec (requestCount user) 4) as [Hlt|Hge].
    + assert (Hmax : requestCount user < int4_max) by (unfold int4_max; lia).
      rewrite (onError_Ok _ _ _ _ _
                 (protected_ALLOW X env uid user t db Hdb Hdec Hmax)) in Happ.
      destruct (step_app _ _ _ _ _ _ _ _ Happ) as [Hstep Hresp].
      rewrite Hresp, Hstep.
      destruct (IH (<[uid := prisma.recordAllowedRequest user t]> db)
                   (prisma.recordAllowedRequest user t)
                   (lookup_insert_eq _ _ _) Hpaid) as [IHr IHc].
      rewrite IHr, IHc. simpl requestCount.
      replace (Z.to_nat (4 - requestCount user))
        with (S (Z.to_nat (4 - (requestCount user + 1)))) by lia.
      cbn [Nat.min replicate Nat.sub app]. split; [reflexivity|].
      f_equal. lia.
    + rewrite (onError_Ok _ _ _ _ _
                 (eq_trans (protected_REQUIRE_PAYMENT X env uid user t db Hdb Hdec)
                    (f_equal (fun r => (match r with
                                        | Ok u => Ok (Json 200 (PaymentRequired u))
                                        | Throw e => Throw e
                                        end, db, [FindUniqueById (JsString uid)]))
                       Hstripe))) in Happ.
      destruct (step_app _ _ _ _ _ _ _ _ Happ) as [Hstep Hresp].
      rewrite Hresp, Hstep.
      destruct (IH db user Hdb Hpaid) as [IHr IHc].
      rewrite IHr, IHc.
      replace (Z.to_nat (4 - requestCount user)) with 0%nat by lia.
      cbn [Nat.min replicate Nat.sub app]. rewrite Nat.sub_0_r.
      split; reflexivity.
Qed.

Lemma free_quota_then_payment_witness :
  responses Demo.X Demo.env
    (map (fun t => (GET_protected (Some "jwt:u1"), t))
         [Demo.noon; Demo.noon + 1; Demo.noon + 2; Demo.noon + 3; Demo.noon + 4;
          Demo.noon + 5])
    Demo.db0
  = replicate
      (Nat.min (Z.to_nat (FREE_QUOTA - requestCount Demo.alice))
         (length [Demo.noon; Demo.noon + 1; Demo.noon + 2; Demo.noon + 3;
                  Demo.noon + 4; Demo.noon + 5]))
      (Json 200 YouAreAuthenticated)
    ++ replicate
         (length [Demo.noon; Demo.noon + 1; Demo.noon + 2; Demo.noon + 3;
                  Demo.noon + 4; Demo.noon + 5]
          - Z.to_nat (FREE_QUOTA - requestCount Demo.alice))
         (Json 200 (PaymentRequired (JsString "https://checkout.stripe.com/c/pay")))
  /\ (requestCount <$>
       run Demo.X Demo.env
         (map (fun t => (GET_protected (Some "jwt:u1"), t))
              [Demo.noon; Demo.noon + 1; Demo.noon + 2; Demo.noon + 3;
               Demo.noon + 4; Demo.noon + 5])
         Demo.db0 !! "u1")
     = Some (requestCount Demo.alice
             + Z.of_nat
                 (Nat.min (Z.to_nat (FREE_QUOTA - requestCount Demo.alice))
                    (length [Demo.noon; Demo.noon + 1; Demo.noon + 2;
                             Demo.noon + 3; Demo.noon + 4; Demo.noon + 5]))).
Proof.
  apply (free_quota_then_payment Demo.X Demo.env (Some "jwt:u1") "jwt:u1" "u1"
           (JsString "https://checkout.stripe.com/c/pay")
           [Demo.noon; Demo.noon + 1; Demo.noon + 2; Demo.noon + 3; Demo.noon + 4;
            Demo.noon + 5]
           Demo.db0 Demo.alice);
    try reflexivity. discriminate.
Defined.
